(** * Asynchronous self-logging of the Log Query System backend

    A shallow embedding of [backend/config.py], [backend/loki_client.py]
    ([push_log]) and [backend/logger.py] ([LokiLogger]), followed by the
    properties of the log-shipping path: label resolution, the payload sent
    to Loki, the error discipline of the transport client and the fallback
    writes of the dispatcher.

    Python strings are [string]s (byte strings; the separator [":"] is one
    byte and occurs in no multi-byte UTF-8 sequence), dictionaries from
    strings to strings are [gmap string string], exceptions are values of
    [exn] threaded through an error-and-state monad over a [World] that
    holds everything the code can observe or change: the clock, the remote
    end, the requests issued, the calls received by the logging methods of
    the local logger, the other attributes the logging library gives that
    logger, the dispatcher object and the started threads. *)

From Stdlib Require Import ZArith String Ascii List DecimalString Lia.
From stdpp Require Import base option list gmap strings.

Local Open Scope string_scope.
Local Open Scope Z_scope.

(** ** Python built-ins used by the code *)

Module py.

(** [c in s] for a one-character string [c]. *)
Fixpoint str_contains (c : ascii) (s : string) : bool :=
  match s with
  | EmptyString => false
  | String a s' => if Ascii.eqb a c then true else str_contains c s'
  end.

(** [s.partition(c)] without the separator: the text before the first
    [c] and, when there is one, the text after it. *)
Fixpoint str_cut (c : ascii) (s : string) : string * option string :=
  match s with
  | EmptyString => (EmptyString, None)
  | String a s' =>
      if Ascii.eqb a c then (EmptyString, Some s')
      else let '(before, after) := str_cut c s' in (String a before, after)
  end.

(** [s.split(c, 1)]: at most one split, at the first [c]. *)
Definition str_split1 (c : ascii) (s : string) : list string :=
  match str_cut c s with
  | (before, Some after) => [before; after]
  | (before, None) => [before]
  end.

(** [s.lower()] on the ASCII letters. *)
Definition ascii_lower (a : ascii) : ascii :=
  let n := nat_of_ascii a in
  if (Nat.leb 65 n && Nat.leb n 90)%bool then ascii_of_nat (n + 32) else a.

Fixpoint str_lower (s : string) : string :=
  match s with
  | EmptyString => EmptyString
  | String a s' => String (ascii_lower a) (str_lower s')
  end.

(** [str(n)] for an [int]: decimal digits, with a leading minus sign for
    a negative number. *)
Definition str_of_int (n : Z) : string := NilZero.string_of_int (Z.to_int n).

Definition is_digit (a : ascii) : bool :=
  let n := nat_of_ascii a in (Nat.leb 48 n && Nat.leb n 57)%bool.

Fixpoint all_digits (s : string) : bool :=
  match s with
  | EmptyString => true
  | String a s' => (is_digit a && all_digits s')%bool
  end.

(** [s.isdigit()]: a non-empty string of decimal digits. *)
Definition str_isdigit (s : string) : bool :=
  match s with
  | EmptyString => false
  | _ => all_digits s
  end.

(** Subclasses of [requests.exceptions.RequestException]. *)
Inductive request_failure :=
| ConnectionError
| Timeout
| HTTPError
| OtherRequestFailure.

(** The exceptions that occur in the modelled code, each with [str(e)];
    [OtherError] is an exception of another class, by the name of the
    class. *)
Inductive exn :=
| ValueError (msg : string)
| RequestException (kind : request_failure) (msg : string)
| LokiClientError (msg : string)
| OtherError (cls : string) (msg : string).

Definition str_of_exn (e : exn) : string :=
  match e with
  | ValueError msg | RequestException _ msg | LokiClientError msg
  | OtherError _ msg => msg
  end.

Inductive result (A : Type) :=
| Ok (a : A)
| Raise (e : exn).
Arguments Ok {A} a.
Arguments Raise {A} e.

(** [a, b = xs] *)
Definition unpack2 (xs : list string) : result (string * string) :=
  match xs with
  | [a; b] => Ok (a, b)
  | [] | [_] =>
      Raise (ValueError
        ("not enough values to unpack (expected 2, got "
           ++ str_of_int (Z.of_nat (List.length xs)) ++ ")"))
  | _ => Raise (ValueError "too many values to unpack (expected 2)")
  end.

End py.
Export py.

(** ** What the code observes and changes *)

(** The JSON body of a push: [{"streams": [{"stream": ..., "values": [[..]]}]}]. *)
Record Stream := {
  stream : gmap string string;
  values : list (list string)
}.

Record Payload := { streams : list Stream }.

(** The arguments of one [requests.post(url, json=, headers=, timeout=)]. *)
Record HttpRequest := {
  req_url : string;
  req_json : Payload;
  req_headers : gmap string string;
  req_timeout : Z
}.

Record Response := {
  status_code : Z;
  reason : string;
  resp_url : string
}.

(** [requests.post] returns a response or raises one of the library's
    [RequestException]s. *)
Inductive PostOutcome :=
| Responds (r : Response)
| Fails (kind : request_failure) (msg : string).

(** The methods of [logging.Logger] that take a message and emit a
    record, by name. *)
Inductive log_method :=
| m_debug | m_info | m_warning | m_error | m_critical
| m_warn | m_exception | m_fatal.

(** The closure of one [push_task]: the arguments of the logging call. *)
Record Task := {
  t_message : string;
  t_level : string;
  t_labels : option (gmap string string)
}.

Record LokiLogger := { default_labels : gmap string string }.

Record World := {
  (** [int(datetime.now().timestamp() * 1e9)] at the next reading *)
  clock_ns : Z;
  (** how the remote end answers a request *)
  network : HttpRequest -> PostOutcome;
  (** the requests issued so far, oldest first *)
  posted : list HttpRequest;
  (** the calls the logging methods of [local_logger] have received,
      oldest first *)
  local_log : list (log_method * string);
  (** the dispatcher instance, [logger = LokiLogger()] *)
  logger_obj : LokiLogger;
  (** the daemon threads started so far, oldest first *)
  threads : list Task;
  (** the attributes [local_logger] has besides the methods of
      [log_method], as the logging library gives them: [None] for a name
      that is no attribute, else what a call of the attribute with one
      string does, return ([None]) or raise *)
  logger_attribute : string -> option (string -> option exn)
}.

(** Computations that read and change the world and may raise. *)
Definition M (A : Type) : Type := World -> result A * World.

Definition ret {A} (a : A) : M A := fun w => (Ok a, w).
Definition raise {A} (e : exn) : M A := fun w => (Raise e, w).
Definition bind {A B} (m : M A) (k : A -> M B) : M B :=
  fun w => match m w with
           | (Ok a, w') => k a w'
           | (Raise e, w') => (Raise e, w')
           end.
Definition lift {A} (r : result A) : M A := fun w => (r, w).

(** [try: body except <handled> as e: handler]; [handler e = None] when
    no [except] clause matches [e], which then propagates. *)
Definition try_except {A} (body : M A) (handler : exn -> option (M A)) : M A :=
  fun w => match body w with
           | (Ok a, w') => (Ok a, w')
           | (Raise e, w') =>
               match handler e with
               | Some h => h w'
               | None => (Raise e, w')
               end
           end.

Notation "x <- m ;; k" := (bind m (fun x => k))
  (at level 100, m at next level, right associativity).
Notation "m ;;; k" := (bind m (fun _ => k))
  (at level 100, right associativity).

(** ** config.py *)

Module config.

Record Config := {
  LOKI_URL : string;
  LOKI_PUSH_ENDPOINT : string;
  DEFAULT_LABEL : string;
  LOG_LEVEL : string
}.

(** The class attributes as written, with no environment override. *)
Definition config : Config := {|
  LOKI_URL := "http://localhost:3100";
  LOKI_PUSH_ENDPOINT := "/loki/api/v1/push";
  DEFAULT_LABEL := "app:main";
  LOG_LEVEL := "INFO"
|}.

Definition get_loki_push_url (cls : Config) : string :=
  LOKI_URL cls ++ LOKI_PUSH_ENDPOINT cls.

End config.
Export config.

(** ** loki_client.py *)

Module loki_client.

(** [requests.post(url, json=payload, headers=headers, timeout=timeout)]:
    the request is issued once and the remote end decides the outcome. *)
Definition requests_post (url : string) (json : Payload)
    (headers : gmap string string) (timeout : Z) : M Response :=
  fun w =>
    let rq := {| req_url := url; req_json := json;
                 req_headers := headers; req_timeout := timeout |} in
    let w' := {| clock_ns := clock_ns w; network := network w;
                 posted := posted w ++ [rq]; local_log := local_log w;
                 logger_obj := logger_obj w; threads := threads w;
                 logger_attribute := logger_attribute w |} in
    match network w rq with
    | Responds r => (Ok r, w')
    | Fails kind msg => (Raise (RequestException kind msg), w')
    end.

(** The text of the [HTTPError] built by [Response.raise_for_status]. *)
Definition http_error_msg (r : Response) : string :=
  if (400 <=? status_code r) && (status_code r <? 500) then
    str_of_int (status_code r) ++ " Client Error: " ++ reason r
      ++ " for url: " ++ resp_url r
  else if (500 <=? status_code r) && (status_code r <? 600) then
    str_of_int (status_code r) ++ " Server Error: " ++ reason r
      ++ " for url: " ++ resp_url r
  else "".

(** [response.raise_for_status()] of the requests library: an [HTTPError]
    for a 4xx or 5xx status, nothing otherwise. *)
Definition raise_for_status (r : Response) : M unit :=
  if (400 <=? status_code r) && (status_code r <? 600) then
    raise (RequestException HTTPError (http_error_msg r))
  else ret tt.

(** [datetime.now().timestamp() * 1e9] truncated by [int]. *)
Definition now_timestamp_ns : M Z := fun w => (Ok (clock_ns w), w).

Definition push_log (cfg : Config) (message : string) (level : string)
    (labels : option (gmap string string)) : M bool :=
  try_except
    (let url := get_loki_push_url cfg in
     labels <- match labels with
               | None =>
                   kv <- lift (unpack2 (str_split1 ":" (DEFAULT_LABEL cfg)));;
                   ret {[ fst kv := snd kv ]}
               | Some given => ret given
               end;;
     now <- now_timestamp_ns;;
     let timestamp_ns := str_of_int now in
     let log_line := "[" ++ level ++ "] " ++ message in
     let payload :=
       {| streams := [ {| stream := labels;
                          values := [ [timestamp_ns; log_line] ] |} ] |} in
     let headers : gmap string string :=
       {[ "Content-Type" := "application/json" ]} in
     response <- requests_post url payload headers 10;;
     raise_for_status response;;;
     ret true)
    (fun e =>
       match e with
       | RequestException _ _ =>
           Some (raise (LokiClientError
                          ("Failed to push log to Loki: " ++ str_of_exn e)))
       | _ => None
       end).

End loki_client.
Export loki_client.

(** ** logger.py *)

Module logger.

(** What [getattr(local_logger, name, local_logger.info)] gives: a method
    that emits a record, or another attribute of the logger, with what
    calling it does. *)
Inductive logger_attr :=
| LoggingMethod (m : log_method)
| OtherAttribute (call : string -> option exn).

(** The methods of [logging.Logger] that take a message and emit a
    record: the five severities, and [warn], [exception] and [fatal]. *)
Definition logging_method (name : string) : option log_method :=
  if String.eqb name "debug" then Some m_debug
  else if String.eqb name "info" then Some m_info
  else if String.eqb name "warning" then Some m_warning
  else if String.eqb name "error" then Some m_error
  else if String.eqb name "critical" then Some m_critical
  else if String.eqb name "warn" then Some m_warn
  else if String.eqb name "exception" then Some m_exception
  else if String.eqb name "fatal" then Some m_fatal
  else None.

(** The attribute of [local_logger] named [name] in the world [w], and
    [local_logger.info] when it has none. *)
Definition logger_getattr (w : World) (name : string) : logger_attr :=
  match logging_method name with
  | Some m => LoggingMethod m
  | None =>
      match logger_attribute w name with
      | Some call => OtherAttribute call
      | None => LoggingMethod m_info
      end
  end.

(** [getattr(local_logger, name, local_logger.info)] *)
Definition local_logger_getattr (name : string) : M logger_attr :=
  fun w => (Ok (logger_getattr w name), w).

(** A call [local_logger.<method>(text)]. *)
Definition local_logger_call (method : log_method) (text : string) : M unit :=
  fun w =>
    (Ok tt,
     {| clock_ns := clock_ns w; network := network w; posted := posted w;
        local_log := local_log w ++ [(method, text)];
        logger_obj := logger_obj w; threads := threads w;
        logger_attribute := logger_attribute w |}).

(** [log_method(text)] for what [getattr] gave: a logging method
    receives the text; another attribute returns or raises as the library
    has it, and no logging method receives anything. *)
Definition attr_call (a : logger_attr) (text : string) : M unit :=
  match a with
  | LoggingMethod m => local_logger_call m text
  | OtherAttribute call =>
      match call text with
      | None => ret tt
      | Some e => raise e
      end
  end.

(** [LokiLogger._parse_default_label] *)
Definition _parse_default_label (cfg : Config) : result (gmap string string) :=
  if str_contains ":" (DEFAULT_LABEL cfg) then
    match unpack2 (str_split1 ":" (DEFAULT_LABEL cfg)) with
    | Ok (key, value) => Ok {[ key := value ]}
    | Raise e => Raise e
    end
  else Ok {[ "label" := DEFAULT_LABEL cfg ]}.

(** [LokiLogger.__init__]: the attribute of the new object is set once. *)
Definition __init__ (cfg : Config) : M unit :=
  parsed <- lift (_parse_default_label cfg);;
  fun w =>
    (Ok tt,
     {| clock_ns := clock_ns w; network := network w; posted := posted w;
        local_log := local_log w;
        logger_obj := {| default_labels := parsed |};
        threads := threads w;
        logger_attribute := logger_attribute w |}).

(** [self.default_labels], read when the statement runs. *)
Definition self_default_labels : M (gmap string string) :=
  fun w => (Ok (default_labels (logger_obj w)), w).

(** The body of the thread started by [_push_to_loki_async]. *)
Definition push_task (cfg : Config) (t : Task) : M unit :=
  try_except
    (log_labels <- match t_labels t with
                   | Some given => ret given
                   | None => self_default_labels
                   end;;
     push_log cfg (t_message t) (t_level t) (Some log_labels);;;
     ret tt)
    (fun e =>
       match e with
       | LokiClientError _ =>
           Some (local_logger_call m_warning
                   ("Failed to push log to Loki, logged locally: "
                      ++ str_of_exn e);;;
                 log_method <- local_logger_getattr (str_lower (t_level t));;
                 attr_call log_method (t_message t))
       | _ => None
       end).

(** [threading.Thread(target=push_task, daemon=True).start()]: the thread
    is recorded as started; the caller does not wait for it. *)
Definition thread_start (t : Task) : M unit :=
  fun w =>
    (Ok tt,
     {| clock_ns := clock_ns w; network := network w; posted := posted w;
        local_log := local_log w; logger_obj := logger_obj w;
        threads := threads w ++ [t];
        logger_attribute := logger_attribute w |}).

Definition _push_to_loki_async (message level : string)
    (labels : option (gmap string string)) : M unit :=
  thread_start {| t_message := message; t_level := level; t_labels := labels |}.

Definition debug (message : string) (labels : option (gmap string string)) : M unit :=
  _push_to_loki_async message "DEBUG" labels.

Definition info (message : string) (labels : option (gmap string string)) : M unit :=
  _push_to_loki_async message "INFO" labels.

Definition warning (message : string) (labels : option (gmap string string)) : M unit :=
  _push_to_loki_async message "WARNING" labels.

Definition error (message : string) (labels : option (gmap string string)) : M unit :=
  _push_to_loki_async message "ERROR" labels.

End logger.
Export logger.

(** ** Running threads, the four severities, and sample worlds *)

(** A started thread runs its [push_task] to the end; what the task
    returns or raises stays in the thread. *)
Definition thread_run (cfg : Config) (t : Task) (w : World) : World :=
  snd (push_task cfg t w).

(** The four public operations of the dispatcher, by severity. *)
Inductive severity := DEBUG | INFO | WARNING | ERROR.

Definition level_name (s : severity) : string :=
  match s with
  | DEBUG => "DEBUG"
  | INFO => "INFO"
  | WARNING => "WARNING"
  | ERROR => "ERROR"
  end.

Definition entry_point (s : severity)
  : string -> option (gmap string string) -> M unit :=
  match s with
  | DEBUG => debug
  | INFO => info
  | WARNING => warning
  | ERROR => error
  end.

Definition severity_method (s : severity) : log_method :=
  match s with
  | DEBUG => m_debug
  | INFO => m_info
  | WARNING => m_warning
  | ERROR => m_error
  end.

(** The label set a logging call selects. *)
Definition selected_labels (labels : option (gmap string string)) (w : World)
  : gmap string string :=
  match labels with
  | Some given => given
  | None => default_labels (logger_obj w)
  end.

(** The dispatcher of [w] was built by [__init__] under [cfg]. *)
Definition constructed (cfg : Config) (w : World) : Prop :=
  _parse_default_label cfg = Ok (default_labels (logger_obj w)).

(** A remote end that answers every request with the given status. *)
Definition answering (status : Z) (phrase : string) : HttpRequest -> PostOutcome :=
  fun rq => Responds {| status_code := status; reason := phrase;
                        resp_url := req_url rq |}.

(** A remote end that cannot be reached. *)
Definition unreachable : HttpRequest -> PostOutcome :=
  fun _ => Fails ConnectionError "Connection refused".

(** The attributes with a lower-case name, the only ones [level.lower()]
    can name, that a [logging.Logger] of CPython 3.11 set up as in
    [logger.py] has besides its eight logging methods, each with what a
    call with one string does. *)
Definition returns : string -> option exn := fun _ => None.

Definition raises (cls msg : string) : string -> option exn :=
  fun _ => Some (OtherError cls msg).

Definition not_callable (type : string) : string -> option exn :=
  raises "TypeError" ("'" ++ type ++ "' object is not callable").

Definition no_attribute (name : string) : exn :=
  OtherError "AttributeError"
    ("'Logger' object has no attribute '" ++ name ++ "'").

Definition is_one_of (names : list string) (name : string) : bool :=
  existsb (String.eqb name) names.

(** Every attribute of the logger, as [dir(local_logger)] lists them. *)
Definition logger_attribute_names : list string :=
  [ "__class__"; "__delattr__"; "__dict__"; "__dir__"; "__doc__"; "__eq__";
    "__format__"; "__ge__"; "__getattribute__"; "__getstate__"; "__gt__";
    "__hash__"; "__init__"; "__init_subclass__"; "__le__"; "__lt__";
    "__module__"; "__ne__"; "__new__"; "__reduce__"; "__reduce_ex__";
    "__repr__"; "__setattr__"; "__sizeof__"; "__str__"; "__subclasshook__";
    "__weakref__"; "_cache"; "_log"; "addFilter"; "addHandler";
    "callHandlers"; "critical"; "debug"; "disabled"; "error"; "exception";
    "fatal"; "filter"; "filters"; "findCaller"; "getChild";
    "getEffectiveLevel"; "handle"; "handlers"; "hasHandlers"; "info";
    "isEnabledFor"; "level"; "log"; "makeRecord"; "manager"; "name";
    "parent"; "propagate"; "removeFilter"; "removeHandler"; "root";
    "setLevel"; "warn"; "warning" ].

(** The attributes kept in the instance, which [del] can remove. *)
Definition logger_instance_names : list string :=
  [ "__dict__"; "_cache"; "disabled"; "filters"; "handlers"; "level";
    "manager"; "name"; "parent"; "propagate" ].

Definition cpython_logger_table : list (string * (string -> option exn)) :=
  [ ("__class__", returns);
    ("__delattr__", fun text =>
       if is_one_of logger_instance_names text then None
       else if String.eqb text "__class__" then
         Some (OtherError "TypeError" "can't delete __class__ attribute")
       else if String.eqb text "__weakref__" then
         Some (OtherError "AttributeError"
                 "attribute '__weakref__' of 'Filterer' objects is not writable")
       else Some (no_attribute text));
    ("__dict__", not_callable "dict");
    ("__dir__", raises "TypeError"
                  "Logger.__dir__() takes no arguments (1 given)");
    ("__doc__", not_callable "str");
    ("__eq__", returns);
    ("__format__", fun text =>
       if String.eqb text "" then None
       else Some (OtherError "TypeError"
                    "unsupported format string passed to Logger.__format__"));
    ("__ge__", returns);
    ("__getattribute__", fun text =>
       if is_one_of logger_attribute_names text then None
       else Some (no_attribute text));
    ("__getstate__", raises "TypeError"
                       "Logger.__getstate__() takes no arguments (1 given)");
    ("__gt__", returns);
    ("__hash__", raises "TypeError" "expected 0 arguments, got 1");
    ("__init__", returns);
    ("__init_subclass__",
       raises "TypeError"
         "Logger.__init_subclass__() takes no arguments (1 given)");
    ("__le__", returns);
    ("__lt__", returns);
    ("__module__", not_callable "str");
    ("__ne__", returns);
    ("__new__", raises "TypeError"
                  "object.__new__(X): X is not a type object (str)");
    ("__reduce__",
       raises "TypeError"
         "Logger.__reduce__() takes 1 positional argument but 2 were given");
    ("__reduce_ex__",
       raises "TypeError" "'str' object cannot be interpreted as an integer");
    ("__repr__",
       raises "TypeError"
         "Logger.__repr__() takes 1 positional argument but 2 were given");
    ("__setattr__", raises "TypeError" " expected 2 arguments, got 1");
    ("__sizeof__", raises "TypeError"
                     "Logger.__sizeof__() takes no arguments (1 given)");
    ("__str__", raises "TypeError" "expected 0 arguments, got 1");
    ("__subclasshook__", returns);
    ("__weakref__", not_callable "NoneType");
    ("_cache", not_callable "dict");
    ("_log",
       raises "TypeError"
         "Logger._log() missing 2 required positional arguments: 'msg' and 'args'");
    ("disabled", not_callable "bool");
    ("filter", returns);
    ("filters", not_callable "list");
    ("handle", raises "AttributeError"
                 "'str' object has no attribute 'levelno'");
    ("handlers", not_callable "list");
    ("level", not_callable "int");
    ("log",
       raises "TypeError"
         "Logger.log() missing 1 required positional argument: 'msg'");
    ("manager", not_callable "Manager");
    ("name", not_callable "str");
    ("parent", not_callable "RootLogger");
    ("propagate", not_callable "bool");
    ("root", not_callable "RootLogger") ].

Fixpoint assoc {A} (key : string) (l : list (string * A)) : option A :=
  match l with
  | [] => None
  | (k, a) :: l' => if String.eqb k key then Some a else assoc key l'
  end.

Definition cpython_logger_attribute (name : string)
  : option (string -> option exn) :=
  assoc name cpython_logger_table.

(** The world of a process that has just built its dispatcher under the
    configuration as written. *)
Definition started (net : HttpRequest -> PostOutcome) (now : Z) : World :=
  {| clock_ns := now; network := net; posted := []; local_log := [];
     logger_obj := {| default_labels := {[ "app" := "main" ]} |};
     threads := [];
     logger_attribute := cpython_logger_attribute |}.


(** The world after one more request has been issued. *)
Definition after_post (rq : HttpRequest) (w : World) : World :=
  {| clock_ns := clock_ns w; network := network w;
     posted := posted w ++ [rq]; local_log := local_log w;
     logger_obj := logger_obj w; threads := threads w;
     logger_attribute := logger_attribute w |}.

(** The world after the local logger has received more calls. *)
Definition after_writes (ws : list (log_method * string)) (w : World) : World :=
  {| clock_ns := clock_ns w; network := network w; posted := posted w;
     local_log := local_log w ++ ws;
     logger_obj := logger_obj w; threads := threads w;
     logger_attribute := logger_attribute w |}.

(** What the call of the attribute [a] with [text] returns or raises,
    and what it hands to the logging methods. *)
Definition fallback_result (a : logger_attr) (text : string) : result unit :=
  match a with
  | LoggingMethod _ => Ok tt
  | OtherAttribute call =>
      match call text with
      | None => Ok tt
      | Some e => Raise e
      end
  end.

Definition fallback_writes (a : logger_attr) (text : string)
  : list (log_method * string) :=
  match a with
  | LoggingMethod m => [(m, text)]
  | OtherAttribute _ => []
  end.

(** The request of a push of [message] at [level] under [labels], read
    off the wire contract: one stream, one line, stamped [now]. *)
Definition push_request (cfg : Config) (message level : string)
    (labels : gmap string string) (now : Z) : HttpRequest :=
  {| req_url := LOKI_URL cfg ++ LOKI_PUSH_ENDPOINT cfg;
     req_json :=
       {| streams :=
            [ {| stream := labels;
                 values := [ [str_of_int now; "[" ++ level ++ "] " ++ message] ]
              |} ] |};
     req_headers := {[ "Content-Type" := "application/json" ]};
     req_timeout := 10 |}.

(** Whether [raise_for_status] raises on a status. *)
Definition is_error_status (status : Z) : bool :=
  (400 <=? status) && (status <? 600).

(** ** The query side: JSON values and more built-ins *)

Module pyjson.

(** A decoded JSON document, as [json.loads] gives it: [None], [bool],
    [int], [str], [list] and [dict] (the items in insertion order, keys
    unique). Numbers are integers. *)
#[warnings="-register-all"]
Inductive json :=
| JNull
| JBool (b : bool)
| JInt (n : Z)
| JStr (s : string)
| JList (l : list json)
| JDict (d : list (string * json)).

(** Exceptions of the query side: the ones of [exn] and the built-in
    classes that dynamic typing can raise, each with its [str(e)]. *)
Inductive exc :=
| Exn (e : exn)
| TypeError (msg : string)
| KeyError (msg : string)
| IndexError (msg : string)
| AttributeError (msg : string)
| OtherException (msg : string).

Definition str_of_exc (e : exc) : string :=
  match e with
  | Exn e => str_of_exn e
  | TypeError msg | KeyError msg | IndexError msg | AttributeError msg
  | OtherException msg => msg
  end.

Inductive res (A : Type) :=
| Val (a : A)
| Exc (e : exc).
Arguments Val {A} a.
Arguments Exc {A} e.

Definition res_of_result {A} (r : result A) : res A :=
  match r with
  | Ok a => Val a
  | Raise e => Exc (Exn e)
  end.

Definition type_name (j : json) : string :=
  match j with
  | JNull => "NoneType"
  | JBool _ => "bool"
  | JInt _ => "int"
  | JStr _ => "str"
  | JList _ => "list"
  | JDict _ => "dict"
  end.

(** [bool(j)]: what [if j:] and [not j] test. *)
Definition truthy (j : json) : bool :=
  match j with
  | JNull => false
  | JBool b => b
  | JInt n => negb (n =? 0)
  | JStr s => negb (String.eqb s "")
  | JList l => match l with [] => false | _ => true end
  | JDict d => match d with [] => false | _ => true end
  end.

(** [d[key]] on the items of a dict, [None] when the key is missing. *)
Fixpoint dict_lookup (key : string) (d : list (string * json)) : option json :=
  match d with
  | [] => None
  | (k, v) :: d' => if String.eqb k key then Some v else dict_lookup key d'
  end.

(** [needle in s] for strings: [needle] occurs in [s]. *)
Fixpoint str_has_substring (needle s : string) : bool :=
  if String.prefix needle s then true
  else match s with
       | EmptyString => false
       | String _ s' => str_has_substring needle s'
       end.

Definition is_the_str (needle : string) (j : json) : bool :=
  match j with
  | JStr s => String.eqb s needle
  | _ => false
  end.

(** [needle in j] for a string [needle]. *)
Definition py_contains (needle : string) (j : json) : res bool :=
  match j with
  | JDict d => Val (match dict_lookup needle d with Some _ => true | None => false end)
  | JList l => Val (existsb (is_the_str needle) l)
  | JStr s => Val (str_has_substring needle s)
  | _ => Exc (TypeError ("argument of type '" ++ type_name j ++ "' is not iterable"))
  end.

(** [j[key]] for a string [key]. *)
Definition py_getitem (j : json) (key : string) : res json :=
  match j with
  | JDict d =>
      match dict_lookup key d with
      | Some v => Val v
      | None => Exc (KeyError ("'" ++ key ++ "'"))
      end
  | JList _ => Exc (TypeError "list indices must be integers or slices, not str")
  | JStr _ => Exc (TypeError "string indices must be integers, not 'str'")
  | _ => Exc (TypeError ("'" ++ type_name j ++ "' object is not subscriptable"))
  end.

(** A [str] is held as its UTF-8 bytes; Python counts and indexes its
    characters (code points). A byte [10xxxxxx] continues the character
    begun before it. *)
Definition is_continuation (a : ascii) : bool :=
  let n := nat_of_ascii a in (Nat.leb 128 n && Nat.ltb n 192)%bool.

Definition continues (c : string) : bool :=
  match c with
  | String a _ => is_continuation a
  | EmptyString => false
  end.

(** The characters of [s], each with all its bytes. *)
Fixpoint utf8_chars (s : string) : list string :=
  match s with
  | EmptyString => []
  | String a s' =>
      match utf8_chars s' with
      | c :: cs =>
          if continues c then String a c :: cs
          else String a EmptyString :: c :: cs
      | [] => [String a EmptyString]
      end
  end.

(** [j[i]] for the index [i], which the code takes as 0 or 1. *)
Definition py_getitem_nat (j : json) (i : nat) : res json :=
  match j with
  | JList l =>
      match nth_error l i with
      | Some v => Val v
      | None => Exc (IndexError "list index out of range")
      end
  | JStr s =>
      match nth_error (utf8_chars s) i with
      | Some c => Val (JStr c)
      | None => Exc (IndexError "string index out of range")
      end
  | JDict _ => Exc (KeyError (str_of_int (Z.of_nat i)))
  | _ => Exc (TypeError ("'" ++ type_name j ++ "' object is not subscriptable"))
  end.

(** [j.get(key, default)] *)
Definition py_get (j : json) (key : string) (default : json) : res json :=
  match j with
  | JDict d =>
      Val (match dict_lookup key d with Some v => v | None => default end)
  | _ => Exc (AttributeError
                ("'" ++ type_name j ++ "' object has no attribute 'get'"))
  end.

(** [len(j)] *)
Definition py_len (j : json) : res Z :=
  match j with
  | JStr s => Val (Z.of_nat (List.length (utf8_chars s)))
  | JList l => Val (Z.of_nat (List.length l))
  | JDict d => Val (Z.of_nat (List.length d))
  | _ => Exc (TypeError ("object of type '" ++ type_name j ++ "' has no len()"))
  end.

Definition str_chars (s : string) : list json := map JStr (utf8_chars s).

(** The items [for x in j] goes through. *)
Definition py_iter (j : json) : res (list json) :=
  match j with
  | JList l => Val l
  | JDict d => Val (map (fun kv => JStr (fst kv)) d)
  | JStr s => Val (str_chars s)
  | _ => Exc (TypeError ("'" ++ type_name j ++ "' object is not iterable"))
  end.

(** What the Python libraries compute and the code only passes on:
    [repr] of a list or dict inside an f-string, and
    [datetime.fromtimestamp(int(t) / 1e9).isoformat()]. *)
Record PyLib := {
  repr_container : json -> string;
  isoformat_of_ns : json -> res string
}.

(** [str(j)], as an f-string formats [j]. *)
Definition py_str (lib : PyLib) (j : json) : string :=
  match j with
  | JNull => "None"
  | JBool true => "True"
  | JBool false => "False"
  | JInt n => str_of_int n
  | JStr s => s
  | _ => repr_container lib j
  end.

Definition res_bind {A B} (r : res A) (k : A -> res B) : res B :=
  match r with
  | Val a => k a
  | Exc e => Exc e
  end.

(** The items of a loop run in order, up to the first exception. *)
Fixpoint res_map {A B} (f : A -> res B) (l : list A) : res (list B) :=
  match l with
  | [] => Val []
  | a :: l' =>
      res_bind (f a) (fun b =>
      res_bind (res_map f l') (fun bs => Val (b :: bs)))
  end.

End pyjson.
Export pyjson.

(** ** The query side: state *)

(** The arguments of one [requests.get(url, params=, timeout=)]. *)
Record GetRequest := {
  get_url : string;
  get_params : list (string * json);
  get_timeout : Z
}.

(** A response to a GET: its status line, and what [response.json()]
    gives, a document or the exception of a body that is no JSON. *)
Record GetResponse := {
  g_status : Z;
  g_reason : string;
  g_url : string;
  g_json : res json
}.

Inductive GetOutcome :=
| GetResponds (r : GetResponse)
| GetFails (kind : request_failure) (msg : string).

(** The backend process: the world of the logging side, the remote end
    as GET requests see it, and the GET requests issued, oldest first. *)
Record Backend := {
  world : World;
  http_get : GetRequest -> GetOutcome;
  got : list GetRequest
}.

Definition B (A : Type) : Type := Backend -> res A * Backend.

Definition b_ret {A} (a : A) : B A := fun b => (Val a, b).
Definition b_raise {A} (e : exc) : B A := fun b => (Exc e, b).
Definition b_bind {A C} (m : B A) (k : A -> B C) : B C :=
  fun b => match m b with
           | (Val a, b') => k a b'
           | (Exc e, b') => (Exc e, b')
           end.
Definition b_lift {A} (r : res A) : B A := fun b => (r, b).

(** [try: body except ...: handler], the clauses tried in order by
    [handler]; [None] when none matches. *)
Definition b_try {A} (body : B A) (handler : exc -> option (B A)) : B A :=
  fun b => match body b with
           | (Val a, b') => (Val a, b')
           | (Exc e, b') =>
               match handler e with
               | Some h => h b'
               | None => (Exc e, b')
               end
           end.

(** A call of a method of [logger] from the backend. *)
Definition b_log (call : string -> option (gmap string string) -> M unit)
    (message : string) : B unit :=
  fun b =>
    let '(r, w') := call message None (world b) in
    (res_of_result r,
     {| world := w'; http_get := http_get b; got := got b |}).

Notation "x <~ m ;; k" := (b_bind m (fun x => k))
  (at level 100, m at next level, right associativity).
Notation "m ;;~ k" := (b_bind m (fun _ => k))
  (at level 100, right associativity).

(** ** config.py, the other endpoints *)

Module config_urls.

Definition LOKI_QUERY_ENDPOINT : string := "/loki/api/v1/query_range".
Definition LOKI_LABELS_ENDPOINT : string := "/loki/api/v1/labels".

Definition get_loki_query_url (cls : Config) : string :=
  LOKI_URL cls ++ LOKI_QUERY_ENDPOINT.

Definition get_loki_labels_url (cls : Config) : string :=
  LOKI_URL cls ++ LOKI_LABELS_ENDPOINT.

Definition get_loki_label_values_url (cls : Config) (label_name : string)
  : string :=
  LOKI_URL cls ++ "/loki/api/v1/label/" ++ label_name ++ "/values".

End config_urls.
Export config_urls.

(** ** loki_client.py, the queries *)

Module loki_queries.

(** [requests.get(url, params=params, timeout=timeout)] *)
Definition requests_get (url : string) (params : list (string * json))
    (timeout : Z) : B GetResponse :=
  fun b =>
    let rq := {| get_url := url; get_params := params;
                 get_timeout := timeout |} in
    let b' := {| world := world b; http_get := http_get b;
                 got := got b ++ [rq] |} in
    match http_get b rq with
    | GetResponds r => (Val r, b')
    | GetFails kind msg => (Exc (Exn (RequestException kind msg)), b')
    end.

(** [response.raise_for_status()] *)
Definition get_raise_for_status (r : GetResponse) : B unit :=
  if (400 <=? g_status r) && (g_status r <? 600) then
    b_raise (Exn (RequestException HTTPError
                    (http_error_msg {| status_code := g_status r;
                                       reason := g_reason r;
                                       resp_url := g_url r |})))
  else b_ret tt.

(** The [except] clauses of [get_labels] and [get_label_values]. *)
Definition fetch_handler (what : string) (e : exc) : option (B json) :=
  match e with
  | Exn (RequestException _ _) =>
      Some (b_raise (Exn (LokiClientError
              ("Failed to fetch " ++ what ++ " from Loki: " ++ str_of_exc e))))
  | KeyError _ | Exn (ValueError _) =>
      Some (b_raise (Exn (LokiClientError
              ("Invalid response format from Loki: " ++ str_of_exc e))))
  | _ => None
  end.

(** The body shared by [get_labels] and [get_label_values] after the
    URL is chosen. *)
Definition fetch_data (url : string) : B json :=
  response <~ requests_get url [] 10;;
  get_raise_for_status response;;~
  data <~ b_lift (g_json response);;
  has_data <~ b_lift (py_contains "data" data);;
  if has_data then b_lift (py_getitem data "data")
  else b_ret (JList []).

Definition get_labels (cfg : Config) : B json :=
  b_try (fetch_data (get_loki_labels_url cfg)) (fetch_handler "labels").

Definition get_label_values (cfg : Config) (label_name : string) : B json :=
  b_try (fetch_data (get_loki_label_values_url cfg label_name))
        (fetch_handler "label values").

(** The one-character string of a double quote. *)
Definition dquote : string := String (ascii_of_nat 34) EmptyString.

(** The LogQL selector built from the label. *)
Definition logql_of_label (lib : PyLib) (label : json) : res string :=
  res_bind (py_contains ":" label) (fun has_colon =>
  if has_colon then
    match label with
    | JStr s =>
        res_bind (res_of_result (unpack2 (str_split1 ":" s))) (fun kv =>
        Val ("{" ++ fst kv ++ "=" ++ dquote ++ snd kv ++ dquote ++ "}"))
    | _ => Exc (AttributeError
                  ("'" ++ type_name label ++ "' object has no attribute 'split'"))
    end
  else Val ("{" ++ py_str lib label ++ "}")).

(** The query parameters: the selector, and each bound that is given. *)
Definition query_params (logql_query : string) (start_time end_time : json)
  : list (string * json) :=
  ([("query", JStr logql_query)]
   ++ (if truthy start_time then [("start", start_time)] else [])
   ++ (if truthy end_time then [("end", end_time)] else []))%list.

(** One pass of the inner loop: an entry for [value] of a stream. *)
Definition log_entry (lib : PyLib) (stream_labels value : json) : res json :=
  res_bind (py_getitem_nat value 0) (fun timestamp_ns =>
  res_bind (py_getitem_nat value 1) (fun message =>
  res_bind (isoformat_of_ns lib timestamp_ns) (fun timestamp_iso =>
  Val (JDict [("timestamp", JStr timestamp_iso);
              ("message", message);
              ("labels", stream_labels)])))).

(** One pass of the outer loop: the entries of [stream]. *)
Definition stream_entries (lib : PyLib) (stream : json) : res (list json) :=
  res_bind (py_get stream "stream" (JDict [])) (fun stream_labels =>
  res_bind (py_get stream "values" (JList [])) (fun values =>
  res_bind (py_iter values) (fun items =>
  res_map (log_entry lib stream_labels) items))).

(** The entries read from the decoded response. *)
Definition parse_logs (lib : PyLib) (data : json) : res (list json) :=
  res_bind (py_contains "data" data) (fun has_data =>
  res_bind (if has_data
            then res_bind (py_getitem data "data") (py_contains "result")
            else Val false) (fun has_result =>
  if has_result then
    res_bind (py_getitem data "data") (fun inner =>
    res_bind (py_getitem inner "result") (fun result =>
    res_bind (py_iter result) (fun streams =>
    res_bind (res_map (stream_entries lib) streams) (fun per_stream =>
    Val (concat per_stream)))))
  else Val [])).

Definition query_logs (lib : PyLib) (cfg : Config)
    (label start_time end_time : json) : B json :=
  b_try
    (let url := get_loki_query_url cfg in
     logql_query <~ b_lift (logql_of_label lib label);;
     let params := query_params logql_query start_time end_time in
     response <~ requests_get url params 10;;
     get_raise_for_status response;;~
     data <~ b_lift (g_json response);;
     logs <~ b_lift (parse_logs lib data);;
     b_ret (JList logs))
    (fun e =>
       match e with
       | Exn (RequestException _ _) =>
           Some (b_raise (Exn (LokiClientError
                   ("Failed to query logs from Loki: " ++ str_of_exc e))))
       | KeyError _ | Exn (ValueError _) | IndexError _ =>
           Some (b_raise (Exn (LokiClientError
                   ("Invalid response format from Loki: " ++ str_of_exc e))))
       | _ => None
       end).

End loki_queries.
Export loki_queries.

(** ** routes.py *)

Module routes.

Definition create_success_response (data : json) : json :=
  JDict [("status", JStr "success"); ("data", data)].

Definition create_error_response (message code : string) : json :=
  JDict [("status", JStr "error"); ("message", JStr message);
         ("code", JStr code)].

(** A view returns [jsonify(body), status]. *)
Definition View : Type := B (json * Z).

(** The two [except] clauses every view ends with. *)
Definition view_handler (loki_log loki_message view_name : string) (e : exc)
  : option View :=
  match e with
  | Exn (LokiClientError _) =>
      Some (b_log error (loki_log ++ str_of_exc e);;~
            b_ret (create_error_response loki_message "LOKI_ERROR", 500))
  | _ =>
      Some (b_log error
              ("Unexpected error in " ++ view_name ++ ": " ++ str_of_exc e);;~
            b_ret (create_error_response "Internal server error"
                     "INTERNAL_ERROR", 500))
  end.

Definition get_loki_labels (cfg : Config) : View :=
  b_try
    (b_log info "Fetching labels from Loki";;~
     labels <~ get_labels cfg;;
     count <~ b_lift (py_len labels);;
     b_log info ("Successfully retrieved " ++ str_of_int count
                   ++ " labels from Loki");;~
     b_ret (create_success_response labels, 200))
    (view_handler "Failed to fetch labels from Loki: "
       "Failed to retrieve labels" "get_loki_labels").


(** The text logged before the query is made. *)
Definition query_log_msg (lib : PyLib) (label start_time end_time : json)
  : string :=
  "Querying logs from Loki with label=" ++ py_str lib label
  ++ (if truthy start_time || truthy end_time
      then ", start_time=" ++ py_str lib start_time
           ++ ", end_time=" ++ py_str lib end_time
      else "").

(** [get_json] is what [request.get_json()] gives for the request at
    hand: the decoded body, or the exception it raises. *)
Definition query_loki_logs (lib : PyLib) (cfg : Config) (get_json : res json)
  : View :=
  b_try
    (match get_json with
     | Exc e =>
         b_log warning ("Failed to parse request body: " ++ str_of_exc e);;~
         b_ret (create_error_response "Invalid JSON in request body"
                  "VALIDATION_ERROR", 400)
     | Val request_data =>
         if negb (truthy request_data) then
           b_log warning "Received log query request with no body";;~
           b_ret (create_error_response "Request body is required"
                    "VALIDATION_ERROR", 400)
         else
           label <~ b_lift (py_get request_data "label" JNull);;
           if negb (truthy label) then
             b_log warning
               "Received log query request without label parameter";;~
             b_ret (create_error_response "Label parameter is required"
                      "VALIDATION_ERROR", 400)
           else
             start_time <~ b_lift (py_get request_data "start_time" JNull);;
             end_time <~ b_lift (py_get request_data "end_time" JNull);;
             b_log info (query_log_msg lib label start_time end_time);;~
             logs <~ query_logs lib cfg label start_time end_time;;
             count <~ b_lift (py_len logs);;
             b_log info ("Successfully retrieved " ++ str_of_int count
                           ++ " log entries from Loki");;~
             b_ret (create_success_response logs, 200)
     end)
    (view_handler "Failed to query logs from Loki: "
       "Failed to query logs" "query_loki_logs").

End routes.
Export routes.

(** ** conftest.py *)

Module conftest.

(** What the hooks read of a pytest report. *)
Record TestReport := {
  when : string;
  nodeid : string;
  passed : bool;
  failed : bool;
  skipped : bool;
  longreprtext : string
}.

Definition pytest_runtest_setup (item_nodeid : string) : M unit :=
  info ("Test started: " ++ item_nodeid) None.

Definition pytest_runtest_logreport (report : TestReport) : M unit :=
  if String.eqb (when report) "call" then
    let test_name := nodeid report in
    if passed report then info ("Test passed: " ++ test_name) None
    else if failed report then
      error ("Test failed: " ++ test_name ++ " - " ++ longreprtext report) None
    else if skipped report then
      warning ("Test skipped: " ++ test_name) None
    else ret tt
  else ret tt.

Definition pytest_sessionstart : M unit :=
  info "Test session started" None.

(** The half-second sleep before the message changes nothing here. *)
Definition pytest_sessionfinish (exitstatus : Z) : M unit :=
  let status_msg :=
    if exitstatus =? 0 then "success"
    else "failed with exit code " ++ str_of_int exitstatus in
  info ("Test session finished: " ++ status_msg) None.

End conftest.
Export conftest.

(** ** Sample backends *)

(** A library whose formatting is of no interest. *)
Definition sample_lib : PyLib :=
  {| repr_container := fun _ => "<container>";
     isoformat_of_ns := fun t =>
       match t with
       | JStr s => Val ("iso:" ++ s)
       | _ => Exc (TypeError "timestamp")
       end |}.

(** A backend whose remote end answers every GET with status 200 and the
    given document. *)
Definition backend_answering (body : json) : Backend :=
  {| world := started unreachable 0;
     http_get := fun rq => GetResponds {| g_status := 200; g_reason := "OK";
                                          g_url := get_url rq;
                                          g_json := Val body |};
     got := [] |}.

(** The level and text of the logging threads started, oldest first. *)
Definition logged (b : Backend) : list (string * string) :=
  map (fun t => (t_level t, t_message t)) (threads (world b)).

(** The backend after one more GET request has been issued. *)
Definition after_get (rq : GetRequest) (b : Backend) : Backend :=
  {| world := world b; http_get := http_get b; got := (got b ++ [rq])%list |}.

(** The GET request of [get_labels]. *)
Definition labels_request (cfg : Config) : GetRequest :=
  {| get_url := LOKI_URL cfg ++ "/loki/api/v1/labels";
     get_params := []; get_timeout := 10 |}.

(** The GET request of [get_label_values]. *)
Definition label_values_request (cfg : Config) (label_name : string)
  : GetRequest :=
  {| get_url := LOKI_URL cfg ++ "/loki/api/v1/label/" ++ label_name ++ "/values";
     get_params := []; get_timeout := 10 |}.

(** The GET request of [query_logs] for the selector [logql_query]. *)
Definition logs_request (cfg : Config) (logql_query : string)
    (start_time end_time : json) : GetRequest :=
  {| get_url := LOKI_URL cfg ++ "/loki/api/v1/query_range";
     get_params := query_params logql_query start_time end_time;
     get_timeout := 10 |}.

(** What [query_logs] raises for an exception raised inside its [try]. *)
Definition query_failure (e : exc) : exc :=
  match e with
  | Exn (RequestException _ msg) =>
      Exn (LokiClientError ("Failed to query logs from Loki: " ++ msg))
  | KeyError msg | Exn (ValueError msg) | IndexError msg =>
      Exn (LokiClientError ("Invalid response format from Loki: " ++ msg))
  | _ => e
  end.

(** ** The shape of an answer of [query_range] *)

(** [value] is a list that begins with the timestamp and the line of
    [tm]; what follows them is not read. *)
Definition value_of (tm : json * json) (value : json) : Prop :=
  exists more, value = JList (fst tm :: snd tm :: more).

(** [stream] is an object in which [stream.get('stream', {})] finds the
    labels of [st] and [stream.get('values', [])] a list of its lines;
    its other keys are free. *)
Definition stream_of (st : json * list (json * json)) (stream : json) : Prop :=
  exists sd values,
    stream = JDict sd
    /\ match dict_lookup "stream" sd with
       | Some labels => labels
       | None => JDict []
       end = fst st
    /\ match dict_lookup "values" sd with
       | Some v => v
       | None => JList []
       end = JList values
    /\ Forall2 value_of (snd st) values.

(** [data] is an object whose ["data"] is an object whose ["result"] is
    the list [result]; the other keys of both objects are free. *)
Definition result_of (result : list json) (data : json) : Prop :=
  exists d inner,
    data = JDict d
    /\ dict_lookup "data" d = Some (JDict inner)
    /\ dict_lookup "result" inner = Some (JList result).

(** [data] is an answer with the streams [streams], in their order. *)
Definition answer_of (streams : list (json * list (json * json)))
    (data : json) : Prop :=
  exists result, result_of result data /\ Forall2 stream_of streams result.

(** An answer of Loki with one stream of two lines, and the statistics
    Loki sends along. *)
Definition sample_answer : json :=
  JDict
    [("status", JStr "success");
     ("data",
      JDict
        [("resultType", JStr "streams");
         ("result",
          JList
            [ JDict
                [("stream", JDict [("app", JStr "main")]);
                 ("values",
                  JList
                    [ JList [JStr "1700000000000000000";
                             JStr "[INFO] boot complete"];
                      JList [JStr "1700000000000000001";
                             JStr "[ERROR] lost"] ])] ]);
         ("stats",
          JDict [("summary", JDict [("totalLinesProcessed", JInt 2)])])])].

(** The streams of [sample_answer]. *)
Definition sample_streams : list (json * list (json * json)) :=
  [ (JDict [("app", JStr "main")],
     [ (JStr "1700000000000000000", JStr "[INFO] boot complete");
       (JStr "1700000000000000001", JStr "[ERROR] lost") ]) ].

(** An answer whose second stream has a value without a line. *)
Definition sample_short_answer : json :=
  JDict
    [("status", JStr "success");
     ("data",
      JDict
        [("resultType", JStr "streams");
         ("result",
          JList
            [ JDict
                [("stream", JDict [("app", JStr "main")]);
                 ("values",
                  JList [ JList [JStr "1700000000000000000"; JStr "first"] ])];
              JDict
                [("stream", JDict [("app", JStr "main")]);
                 ("values",
                  JList [ JList [JStr "1700000000000000001"; JStr "second"];
                          JList [JStr "1700000000000000002"] ])] ]);
         ("stats", JDict [])])].

(** The conversion of timestamps by [sample_lib]. *)
Definition sample_iso (t : json) : string :=
  match t with
  | JStr s => "iso:" ++ s
  | _ => EmptyString
  end.

(** The backend after [logger.<level>(message)] has been called with no
    labels: one more logging thread is started. *)
Definition after_log (level message : string) (b : Backend) : Backend :=
  {| world :=
       {| clock_ns := clock_ns (world b); network := network (world b);
          posted := posted (world b); local_log := local_log (world b);
          logger_obj := logger_obj (world b);
          threads := (threads (world b)
                      ++ [ {| t_message := message; t_level := level;
                              t_labels := None |} ])%list;
          logger_attribute := logger_attribute (world b) |};
     http_get := http_get b; got := got b |}.

(** The two bodies a view answers an exception with. *)
Definition loki_error_body (message : string) : json :=
  create_error_response message "LOKI_ERROR".

Definition internal_error_body : json :=
  create_error_response "Internal server error" "INTERNAL_ERROR".

(** The entries of an answer made of streams of timestamped lines. *)
Definition entries_of (iso : json -> string)
    (streams : list (json * list (json * json))) : list json :=
  flat_map
    (fun st =>
       map (fun tm => JDict [("timestamp", JStr (iso (fst tm)));
                             ("message", snd tm);
                             ("labels", fst st)])
         (snd st))
    streams.

(** The hooks of [conftest.py], with what pytest passes to each. *)
Inductive Hook :=
| RuntestSetup (item_nodeid : string)
| RuntestLogreport (report : conftest.TestReport)
| SessionStart
| SessionFinish (exitstatus : Z).

Definition run_hook (h : Hook) : M unit :=
  match h with
  | RuntestSetup item_nodeid => conftest.pytest_runtest_setup item_nodeid
  | RuntestLogreport report => conftest.pytest_runtest_logreport report
  | SessionStart => conftest.pytest_sessionstart
  | SessionFinish exitstatus => conftest.pytest_sessionfinish exitstatus
  end.

(** The world after more threads have been started. *)
Definition after_starts (ts : list Task) (w : World) : World :=
  {| clock_ns := clock_ns w; network := network w; posted := posted w;
     local_log := local_log w; logger_obj := logger_obj w;
     threads := (threads w ++ ts)%list;
     logger_attribute := logger_attribute w |}.

(** * Properties *)

(** ** Strings *)

Lemma str_cut_absent (c : ascii) (s : string) :
  str_contains c s = false -> str_cut c s = (s, None).
Proof.
  induction s as [|a s IH]; simpl; [reflexivity|].
  destruct (Ascii.eqb a c); [discriminate|].
  intros H. rewrite (IH H). reflexivity.
Qed.

Lemma str_cut_present (c : ascii) (s : string) :
  str_contains c s = true ->
  exists k v, str_cut c s = (k, Some v) /\ s = k ++ String c v
              /\ str_contains c k = false.
Proof.
  induction s as [|a s IH]; simpl; [discriminate|].
  destruct (Ascii.eqb a c) eqn:E.
  - intros _. apply Ascii.eqb_eq in E. subst a.
    exists EmptyString, s. repeat split.
  - intros H. destruct (IH H) as (k & v & Hcut & Hs & Hk).
    exists (String a k), v. rewrite Hcut. repeat split.
    + rewrite Hs at 1. reflexivity.
    + simpl. rewrite E. exact Hk.
Qed.

Lemma str_contains_app_sep (c : ascii) (k v : string) :
  str_contains c (k ++ String c v) = true.
Proof.
  induction k as [|a k IH]; simpl.
  - rewrite Ascii.eqb_refl. reflexivity.
  - destruct (Ascii.eqb a c); [reflexivity | exact IH].
Qed.

Lemma all_digits_uint (d : Decimal.uint) :
  all_digits (NilEmpty.string_of_uint d) = true.
Proof. induction d; simpl; auto. Qed.

Lemma str_of_int_isdigit (n : Z) : 0 <= n -> str_isdigit (str_of_int n) = true.
Proof.
  intros Hn. unfold str_of_int.
  destruct n as [|p|p]; [reflexivity| |lia].
  simpl. unfold NilZero.string_of_uint.
  pose proof (all_digits_uint (Pos.to_uint p)) as Hd.
  destruct (Pos.to_uint p); try reflexivity; exact Hd.
Qed.

(** The built-ins on the inputs the code meets. *)

Example split1_app_main : str_split1 ":" "app:main" = ["app"; "main"].
Proof. reflexivity. Qed.

Example split1_first_separator : str_split1 ":" "a:b:c" = ["a"; "b:c"].
Proof. reflexivity. Qed.

Example split1_no_separator : str_split1 ":" "main" = ["main"].
Proof. reflexivity. Qed.

Example lower_warning : str_lower "WARNING" = "warning".
Proof. reflexivity. Qed.

Example str_of_int_zero : str_of_int 0 = "0".
Proof. reflexivity. Qed.

Example push_url_as_written :
  get_loki_push_url config = "http://localhost:3100/loki/api/v1/push".
Proof. reflexivity. Qed.

(** ** The transport client *)

Lemma push_log_given (cfg : Config) (message level : string)
    (l : gmap string string) (w : World) :
  push_log cfg message level (Some l) w =
    let rq := push_request cfg message level l (clock_ns w) in
    (match network w rq with
     | Responds r =>
         if is_error_status (status_code r)
         then Raise (LokiClientError
                       ("Failed to push log to Loki: " ++ http_error_msg r))
         else Ok true
     | Fails _ msg =>
         Raise (LokiClientError ("Failed to push log to Loki: " ++ msg))
     end, after_post rq w).
Proof.
  unfold push_log, try_except, bind, ret, now_timestamp_ns, requests_post,
    raise_for_status, raise, is_error_status, push_request, after_post,
    get_loki_push_url.
  cbv zeta.
  destruct (network w _) as [r|kind msg]; [|reflexivity].
  destruct ((400 <=? status_code r) && (status_code r <? 600)); reflexivity.
Qed.

Lemma push_log_absent (cfg : Config) (message level : string) (w : World) :
  push_log cfg message level None w =
    match unpack2 (str_split1 ":" (DEFAULT_LABEL cfg)) with
    | Ok (key, value) => push_log cfg message level (Some {[ key := value ]}) w
    | Raise e => (Raise e, w)
    end.
Proof.
  unfold push_log, try_except, bind, lift, ret.
  destruct (unpack2 _) as [[key value]|e] eqn:E; simpl.
  - reflexivity.
  - destruct e; try reflexivity.
    all: unfold unpack2 in E;
      destruct (str_split1 _ _) as [|? [|? [|? ?]]]; discriminate.
Qed.

Lemma split1_present (s k v : string) :
  str_cut ":" s = (k, Some v) -> unpack2 (str_split1 ":" s) = Ok (k, v).
Proof. intros H. unfold str_split1. rewrite H. reflexivity. Qed.

Lemma split1_absent (s : string) :
  str_contains ":" s = false ->
  unpack2 (str_split1 ":" s)
  = Raise (ValueError "not enough values to unpack (expected 2, got 1)").
Proof.
  intros H. unfold str_split1. rewrite (str_cut_absent _ _ H). reflexivity.
Qed.

(** ** The label resolver *)

Lemma parse_default_label_total (cfg : Config) :
  exists m, _parse_default_label cfg = Ok m.
Proof.
  unfold _parse_default_label.
  destruct (str_contains ":" (DEFAULT_LABEL cfg)) eqn:E; [|eauto].
  destruct (str_cut_present _ _ E) as (k & v & Hcut & _ & _).
  rewrite (split1_present _ _ _ Hcut). eauto.
Qed.

Lemma parse_default_label_cases (cfg : Config) :
  if str_contains ":" (DEFAULT_LABEL cfg)
  then exists k v,
      DEFAULT_LABEL cfg = k ++ ":" ++ v /\ str_contains ":" k = false
      /\ _parse_default_label cfg = Ok {[ k := v ]}
  else _parse_default_label cfg = Ok {[ "label" := DEFAULT_LABEL cfg ]}.
Proof.
  unfold _parse_default_label.
  destruct (str_contains ":" (DEFAULT_LABEL cfg)) eqn:E; [|reflexivity].
  destruct (str_cut_present _ _ E) as (k & v & Hcut & Hs & Hk).
  exists k, v. rewrite (split1_present _ _ _ Hcut). auto.
Qed.

(** C6. The label resolver splits the configured string at its first
    [":"]: the text before it is the key and everything after it the
    value; a string with no [":"] becomes the value of the fixed key
    ["label"]. Construction stores the resolved mapping in the dispatcher,
    and ["app:main"] resolves to [{"app": "main"}]. *)
Theorem parse_default_label_resolves (cfg : Config) (w : World) :
  (if str_contains ":" (DEFAULT_LABEL cfg)
   then exists k v,
       DEFAULT_LABEL cfg = k ++ ":" ++ v /\ str_contains ":" k = false
       /\ _parse_default_label cfg = Ok {[ k := v ]}
   else _parse_default_label cfg = Ok {[ "label" := DEFAULT_LABEL cfg ]})
  /\ fst (__init__ cfg w) = Ok tt
  /\ _parse_default_label cfg
     = Ok (default_labels (logger_obj (snd (__init__ cfg w))))
  /\ _parse_default_label config = Ok {[ "app" := "main" ]}.
Proof.
  split; [apply parse_default_label_cases|].
  destruct (parse_default_label_total cfg) as [m Hm].
  unfold __init__, bind, lift. rewrite Hm. simpl.
  repeat split; reflexivity.
Qed.

(** ** The transport client: outcomes *)

Lemma error_status_iff (status : Z) :
  is_error_status status = true <-> 400 <= status < 600.
Proof. unfold is_error_status. rewrite andb_true_iff. lia. Qed.




(** ** The transport client: the payload *)

(** C4. For every message, level and label mapping, the body that
    [push_log] posts is one stream carrying the label mapping and one
    values entry, whose second element is exactly ["[<level>] <message>"]
    and whose
    first element is the clock reading in nanoseconds since the epoch
    written in decimal: a non-empty string of digits. *)
Theorem push_log_payload (cfg : Config) (message level : string)
    (labels : gmap string string) (w : World) :
  0 <= clock_ns w ->
  exists rq timestamp_ns,
    posted (snd (push_log cfg message level (Some labels) w))
    = (posted w ++ [rq])%list
    /\ req_json rq
       = {| streams :=
              [ {| stream := labels;
                   values := [ [timestamp_ns; "[" ++ level ++ "] " ++ message] ]
                |} ] |}
    /\ timestamp_ns = str_of_int (clock_ns w)
    /\ str_isdigit timestamp_ns = true.
Proof.
  intros Hclock.
  exists (push_request cfg message level labels (clock_ns w)),
    (str_of_int (clock_ns w)).
  rewrite push_log_given. cbv zeta. simpl.
  repeat split. apply str_of_int_isdigit, Hclock.
Qed.

Lemma push_log_payload_witness :
  0 <= clock_ns (started unreachable 1700000000000000000)
  /\ exists rq,
      posted (snd (push_log config "boot complete" "INFO"
                     (Some {[ "app" := "main" ]})
                     (started unreachable 1700000000000000000))) = [rq]
      /\ req_json rq
         = {| streams :=
                [ {| stream := {[ "app" := "main" ]};
                     values := [ ["1700000000000000000";
                                  "[INFO] boot complete"] ] |} ] |}.
Proof.
  split; [simpl; lia|].
  destruct (push_log_payload config "boot complete" "INFO"
              {[ "app" := "main" ]}
              (started unreachable 1700000000000000000))
    as (rq & ts & Hposted & Hjson & Hts & _); [simpl; lia|].
  exists rq. split; [exact Hposted|].
  rewrite Hjson, Hts. reflexivity.
Defined.

Lemma str_of_int_negative :
  str_of_int (-1) = "-1" /\ str_isdigit (str_of_int (-1)) = false.
Proof. split; reflexivity. Qed.

(** ** The transport client without labels *)

(** C10. Called without labels, [push_log] derives the label mapping by
    splitting the configured default label at its first [":"]: for a
    default label [k:v] it issues exactly one request, whose one stream
    carries the labels [{k: v}], and returns [True] or raises a
    [LokiClientError] as the remote end decides, never a [ValueError].
    When the string has no [":"] the derivation raises a [ValueError],
    which is no [LokiClientError] and is raised before any request is
    issued, whereas the dispatcher's resolver returns the mapping under
    the key ["label"]. *)
Theorem push_log_without_labels (cfg : Config) (message level : string)
    (w : World) :
  if str_contains ":" (DEFAULT_LABEL cfg)
  then exists k v,
      DEFAULT_LABEL cfg = k ++ ":" ++ v /\ str_contains ":" k = false
      /\ (let rq := push_request cfg message level {[ k := v ]} (clock_ns w) in
          push_log cfg message level None w
          = (match network w rq with
             | Responds r =>
                 if is_error_status (status_code r)
                 then Raise (LokiClientError
                               ("Failed to push log to Loki: "
                                  ++ http_error_msg r))
                 else Ok true
             | Fails _ msg =>
                 Raise (LokiClientError ("Failed to push log to Loki: " ++ msg))
             end,
             {| clock_ns := clock_ns w; network := network w;
                posted := (posted w ++ [rq])%list;
                local_log := local_log w; logger_obj := logger_obj w;
                threads := threads w;
                logger_attribute := logger_attribute w |})
          /\ map stream (streams (req_json rq)) = [ {[ k := v ]} ])
      /\ (forall msg, fst (push_log cfg message level None w)
                      <> Raise (ValueError msg))
      /\ push_log cfg message level None w
         = push_log cfg message level (Some {[ k := v ]}) w
      /\ _parse_default_label cfg = Ok {[ k := v ]}
  else
    push_log cfg message level None w
    = (Raise (ValueError "not enough values to unpack (expected 2, got 1)"), w)
    /\ (forall msg, fst (push_log cfg message level None w)
                    <> Raise (LokiClientError msg))
    /\ _parse_default_label cfg = Ok {[ "label" := DEFAULT_LABEL cfg ]}.
Proof.
  pose proof (parse_default_label_cases cfg) as Hparse.
  rewrite push_log_absent.
  destruct (str_contains ":" (DEFAULT_LABEL cfg)) eqn:E.
  - destruct (str_cut_present _ _ E) as (k & v & Hcut & Hs & Hk).
    exists k, v. rewrite (split1_present _ _ _ Hcut).
    split; [exact Hs|]. split; [exact Hk|].
    rewrite push_log_given. cbv zeta.
    split; [split; reflexivity|].
    split.
    + intros msg. simpl fst.
      destruct (network w _) as [r|kind cause];
        [destruct (is_error_status (status_code r))|]; discriminate.
    + split; [reflexivity|].
      unfold _parse_default_label.
      rewrite E, (split1_present _ _ _ Hcut). reflexivity.
  - rewrite (split1_absent _ E). repeat split; [discriminate | exact Hparse].
Qed.

(** ** The dispatcher: one background unit *)

(** One run of [push_task]: the push is attempted once; a
    [LokiClientError] is answered by the warning and by the call of the
    attribute the level names, which decides how the task ends. *)
Lemma push_task_run (cfg : Config) (t : Task) (w : World) :
  let l := selected_labels (t_labels t) w in
  let rq := push_request cfg (t_message t) (t_level t) l (clock_ns w) in
  let a := logger_getattr w (str_lower (t_level t)) in
  push_log cfg (t_message t) (t_level t) (Some l) w
  = (fst (push_log cfg (t_message t) (t_level t) (Some l) w), after_post rq w)
  /\ push_task cfg t w
     = match fst (push_log cfg (t_message t) (t_level t) (Some l) w) with
       | Raise (LokiClientError cause) =>
           (fallback_result a (t_message t),
            after_writes
              ((m_warning,
                "Failed to push log to Loki, logged locally: " ++ cause)
                 :: fallback_writes a (t_message t))
              (after_post rq w))
       | _ => (Ok tt, after_post rq w)
       end.
Proof.
  cbv zeta. split.
  - rewrite push_log_given. reflexivity.
  - unfold push_task, try_except, bind, self_default_labels, ret,
      selected_labels.
    destruct (t_labels t) as [given|]; rewrite push_log_given; cbv zeta;
      simpl fst;
      (destruct (network w _) as [r|kind msg];
       [destruct (is_error_status (status_code r))|];
       unfold local_logger_getattr, attr_call, local_logger_call,
         after_writes, fallback_result, fallback_writes, raise, ret;
       simpl; try reflexivity;
       change (logger_getattr _ (str_lower (t_level t)))
         with (logger_getattr w (str_lower (t_level t)));
       destruct (logger_getattr w (str_lower (t_level t))) as [m|call];
       simpl; rewrite <- ?List.app_assoc; try reflexivity;
       destruct (call (t_message t)); reflexivity).
Qed.


Lemma entry_point_spawns (s : severity) (message : string)
    (labels : option (gmap string string)) (w : World) :
  entry_point s message labels w
  = _push_to_loki_async message (level_name s) labels w.
Proof. destruct s; reflexivity. Qed.

Lemma severity_method_getattr (s : severity) (w : World) :
  logger_getattr w (str_lower (level_name s))
  = LoggingMethod (severity_method s).
Proof. destruct s; reflexivity. Qed.


Lemma thread_run_effect (cfg : Config) (t : Task) (w : World) :
  posted (thread_run cfg t w)
  = (posted w
     ++ [push_request cfg (t_message t) (t_level t)
           (selected_labels (t_labels t) w) (clock_ns w)])%list
  /\ logger_obj (thread_run cfg t w) = logger_obj w
  /\ threads (thread_run cfg t w) = threads w.
Proof.
  unfold thread_run.
  destruct (push_task_run cfg t w) as [_ Htask]. cbv zeta in Htask.
  rewrite Htask.
  destruct (fst (push_log _ _ _ _ _)) as [b|[]]; repeat split; reflexivity.
Qed.

(** At one of the four severities the task ends normally. *)
Lemma push_task_ends (cfg : Config) (s : severity) (message : string)
    (labels : option (gmap string string)) (w : World) :
  fst (push_task cfg
         {| t_message := message; t_level := level_name s;
            t_labels := labels |} w) = Ok tt.
Proof.
  destruct (push_task_run cfg
              {| t_message := message; t_level := level_name s;
                 t_labels := labels |} w) as [_ Htask].
  cbv zeta in Htask. simpl in Htask.
  rewrite Htask, severity_method_getattr.
  destruct (fst (push_log _ _ _ _ _)) as [b|[]]; reflexivity.
Qed.


Lemma constructed_singleton (cfg : Config) (w : World) :
  constructed cfg w ->
  exists k v, default_labels (logger_obj w) = {[ k := v ]}.
Proof.
  unfold constructed. intros H.
  pose proof (parse_default_label_cases cfg) as Hc.
  destruct (str_contains ":" (DEFAULT_LABEL cfg)).
  - destruct Hc as (k & v & _ & _ & Hp). rewrite Hp in H.
    injection H as <-. eauto.
  - rewrite Hc in H. injection H as <-. eauto.
Qed.

(** ** The dispatcher: labels *)

(** C2. The label set a logging call delivers to the transport is
    selected, not merged: without labels the stream of the payload is
    exactly the default pair resolved from the configuration, one key and
    one value; with labels it is exactly the mapping supplied. *)
Theorem logging_call_labels_selected (cfg : Config) (s : severity)
    (message : string) (labels : option (gmap string string)) (w : World) :
  constructed cfg w ->
  let t := {| t_message := message; t_level := level_name s;
              t_labels := labels |} in
  threads (snd (entry_point s message labels w)) = (threads w ++ [t])%list
  /\ exists rq st,
      posted (thread_run cfg t w) = (posted w ++ [rq])%list
      /\ streams (req_json rq) = [st]
      /\ match labels with
         | Some given => stream st = given
         | None =>
             _parse_default_label cfg = Ok (stream st)
             /\ exists k v, stream st = {[ k := v ]}
         end.
Proof.
  intros Hc. cbv zeta. rewrite entry_point_spawns. split; [reflexivity|].
  destruct (thread_run_effect cfg
              {| t_message := message; t_level := level_name s;
                 t_labels := labels |} w) as (Hposted & _).
  eexists. eexists. split; [exact Hposted|]. split; [reflexivity|].
  simpl. destruct labels as [given|]; [reflexivity|].
  split; [exact Hc | exact (constructed_singleton cfg w Hc)].
Qed.

Lemma logging_call_labels_selected_witness :
  constructed config (started (answering 204 "No Content") 1700000000000000000)
  /\ exists rq st,
      posted (thread_run config
                {| t_message := "boot complete"; t_level := "INFO";
                   t_labels := None |}
                (started (answering 204 "No Content") 1700000000000000000))
      = [rq]
      /\ streams (req_json rq) = [st]
      /\ stream st = {[ "app" := "main" ]}.
Proof.
  split; [reflexivity|].
  destruct (logging_call_labels_selected config INFO "boot complete" None
              (started (answering 204 "No Content") 1700000000000000000)
              eq_refl)
    as (_ & rq & st & Hposted & Hst & Hparse & _).
  exists rq, st. split; [exact Hposted|]. split; [exact Hst|].
  injection Hparse as <-. reflexivity.
Defined.

(** C5 (as amended). Every record sent to the transport carries exactly
    one label set, the mapping supplied by the caller or else the default,
    never the two merged; it is empty exactly when the caller supplies an
    empty mapping, which is sent as it is. *)
Theorem logging_call_label_set (cfg : Config) (s : severity)
    (message : string) (labels : option (gmap string string)) (w : World) :
  constructed cfg w ->
  let t := {| t_message := message; t_level := level_name s;
              t_labels := labels |} in
  exists rq st,
    posted (thread_run cfg t w) = (posted w ++ [rq])%list
    /\ streams (req_json rq) = [st]
    /\ stream st = match labels with
                   | Some given => given
                   | None => default_labels (logger_obj w)
                   end
    /\ (stream st = ∅ <-> labels = Some ∅).
Proof.
  intros Hc. cbv zeta.
  destruct (thread_run_effect cfg
              {| t_message := message; t_level := level_name s;
                 t_labels := labels |} w) as (Hposted & _).
  eexists. eexists. split; [exact Hposted|]. split; [reflexivity|].
  simpl. split; [reflexivity|].
  destruct labels as [given|]; simpl.
  - split; congruence.
  - destruct (constructed_singleton cfg w Hc) as (k & v & ->).
    split; [|discriminate].
    intros H. apply (f_equal (fun m : gmap string string => m !! k)) in H.
    rewrite lookup_singleton_eq, lookup_empty in H. discriminate.
Qed.

Lemma logging_call_label_set_witness :
  constructed config (started unreachable 0)
  /\ exists rq st,
      posted (thread_run config
                {| t_message := "m"; t_level := "ERROR";
                   t_labels := Some {[ "service" := "api" ]} |}
                (started unreachable 0))
      = [rq]
      /\ streams (req_json rq) = [st]
      /\ stream st = {[ "service" := "api" ]}.
Proof.
  split; [reflexivity|].
  destruct (logging_call_label_set config ERROR "m"
              (Some {[ "service" := "api" ]}) (started unreachable 0) eq_refl)
    as (rq & st & Hposted & Hst & Hsel & _).
  exists rq, st. auto.
Defined.

(** C5 (as stated) fails: [info] called with an explicitly empty mapping
    sends a record whose label set is empty. *)
Lemma logging_call_label_set_counterexample :
  threads (snd (info "m" (Some ∅) (started (answering 204 "No Content") 0)))
  = [ {| t_message := "m"; t_level := "INFO"; t_labels := Some ∅ |} ]
  /\ map (fun rq => map stream (streams (req_json rq)))
       (posted (thread_run config
                  {| t_message := "m"; t_level := "INFO"; t_labels := Some ∅ |}
                  (started (answering 204 "No Content") 0)))
     = [ [ ∅ ] ].
Proof. split; reflexivity. Qed.

(** ** The dispatcher: what the caller sees *)

(** C7. Each of [debug], [info], [warning] and [error], for every message
    and every optional label mapping, returns [None] to its caller and
    raises nothing; the background unit it starts ends without an
    exception of its own as well, whatever the remote end does, so no
    delivery failure has a way to the caller. *)
Theorem logging_call_never_raises (cfg : Config) (s : severity)
    (message : string) (labels : option (gmap string string)) (w : World) :
  fst (entry_point s message labels w) = Ok tt
  /\ forall w2 : World,
      fst (push_task cfg
             {| t_message := message; t_level := level_name s;
                t_labels := labels |} w2) = Ok tt.
Proof.
  rewrite entry_point_spawns. split; [reflexivity|].
  intros w2. apply push_task_ends.
Qed.



(** The level ["NAME"] names an attribute of the local logger that is no
    method: the call is accepted all the same, and when delivery fails
    the unit ends with a [TypeError] after the warning, the message
    written nowhere. The level ["FATAL"] names the logging method
    [fatal], which receives the message. *)
Example push_task_other_attributes :
  fst (_push_to_loki_async "m" "NAME" None (started unreachable 0)) = Ok tt
  /\ push_task config
       {| t_message := "m"; t_level := "NAME"; t_labels := None |}
       (started unreachable 0)
     = (Raise (OtherError "TypeError" "'str' object is not callable"),
        after_writes
          [ (m_warning,
             "Failed to push log to Loki, logged locally: Failed to push log to Loki: Connection refused") ]
          (after_post
             (push_request config "m" "NAME" {[ "app" := "main" ]} 0)
             (started unreachable 0)))
  /\ local_log
       (thread_run config
          {| t_message := "m"; t_level := "FATAL"; t_labels := None |}
          (started unreachable 0))
     = [ (m_warning,
          "Failed to push log to Loki, logged locally: Failed to push log to Loki: Connection refused");
         (m_fatal, "m") ].
Proof. repeat split. Qed.

(** ** The dispatcher: the default labels *)

(** C9. The default label mapping is resolved when the dispatcher is
    constructed and is not written afterwards: a logging call leaves the
    dispatcher as it was, and so does the background unit, on the path
    where delivery succeeds and on the fallback path alike. *)
Theorem default_labels_read_only (cfg : Config) (s : severity)
    (message : string) (labels : option (gmap string string)) (w : World) :
  _parse_default_label cfg
  = Ok (default_labels (logger_obj (snd (__init__ cfg w))))
  /\ logger_obj (snd (entry_point s message labels w)) = logger_obj w
  /\ forall w2 : World,
      logger_obj (thread_run cfg
                    {| t_message := message; t_level := level_name s;
                       t_labels := labels |} w2)
      = logger_obj w2.
Proof.
  split; [|split].
  - destruct (parse_default_label_total cfg) as [m Hm].
    unfold __init__, bind, lift. rewrite Hm. reflexivity.
  - rewrite entry_point_spawns. reflexivity.
  - intros w2. apply thread_run_effect.
Qed.

(** * The query side *)

(** ** Fetching labels and label values *)

Ltac run_fetch :=
  unfold get_labels, get_label_values, fetch_data, fetch_handler, b_try,
    b_bind, requests_get, get_raise_for_status, b_lift, b_raise, b_ret,
    get_loki_labels_url, get_loki_label_values_url, LOKI_LABELS_ENDPOINT,
    labels_request, label_values_request, after_get, is_error_status;
  cbv zeta.

(** What [fetch_data] under the handler of [what] makes of the answer
    to its one request. *)
Lemma fetch_run (what url : string) (b : Backend) :
  let rq := {| get_url := url; get_params := []; get_timeout := 10 |} in
  b_try (fetch_data url) (fetch_handler what) b
  = (match http_get b rq with
     | GetFails _ msg =>
         Exc (Exn (LokiClientError
                ("Failed to fetch " ++ what ++ " from Loki: " ++ msg)))
     | GetResponds r =>
         if is_error_status (g_status r) then
           Exc (Exn (LokiClientError
                  ("Failed to fetch " ++ what ++ " from Loki: "
                     ++ http_error_msg {| status_code := g_status r;
                                          reason := g_reason r;
                                          resp_url := g_url r |})))
         else
           match g_json r with
           | Exc (Exn (RequestException _ msg)) =>
               Exc (Exn (LokiClientError
                      ("Failed to fetch " ++ what ++ " from Loki: " ++ msg)))
           | Exc (Exn (ValueError msg)) | Exc (KeyError msg) =>
               Exc (Exn (LokiClientError
                      ("Invalid response format from Loki: " ++ msg)))
           | Exc e => Exc e
           | Val (JDict d) =>
               Val (match dict_lookup "data" d with
                    | Some v => v
                    | None => JList []
                    end)
           | Val (JList l) =>
               if existsb (is_the_str "data") l
               then Exc (TypeError
                           "list indices must be integers or slices, not str")
               else Val (JList [])
           | Val (JStr s) =>
               if str_has_substring "data" s
               then Exc (TypeError "string indices must be integers, not 'str'")
               else Val (JList [])
           | Val j =>
               Exc (TypeError
                      ("argument of type '" ++ type_name j
                         ++ "' is not iterable"))
           end
     end, after_get rq b).
Proof.
  run_fetch.
  destruct (http_get b _) as [r|kind msg]; [|reflexivity].
  destruct ((400 <=? g_status r) && (g_status r <? 600)); [reflexivity|].
  destruct (g_json r) as [j|e]; simpl.
  - destruct j as [| | | s | l | d]; simpl; try reflexivity.
    + destruct (str_has_substring "data" s); reflexivity.
    + destruct (existsb (is_the_str "data") l); reflexivity.
    + destruct (dict_lookup "data" d); reflexivity.
  - destruct e as [[]| | | | |]; reflexivity.
Qed.

(** X1. [get_labels] makes exactly one GET request, to
    [<LOKI_URL>/loki/api/v1/labels] with no parameters and a timeout of
    10, whatever the answer is, and changes nothing else: it starts no
    logging thread and posts nothing. *)
Theorem get_labels_one_request (cfg : Config) (b : Backend) :
  snd (get_labels cfg b)
  = {| world := world b; http_get := http_get b;
       got := (got b
               ++ [ {| get_url := LOKI_URL cfg ++ "/loki/api/v1/labels";
                       get_params := []; get_timeout := 10 |} ])%list |}.
Proof.
  unfold get_labels. rewrite fetch_run. reflexivity.
Qed.

(** X2. [get_labels] turns every failure of the request into a
    [LokiClientError]: a transport failure and a 4xx or 5xx status give
    ["Failed to fetch labels from Loki: <cause>"], and so does a body
    whose decoding raises a request error; a decoding that raises a
    [ValueError] gives ["Invalid response format from Loki: <cause>"]. *)
Theorem get_labels_wraps_failures (cfg : Config) (b : Backend) :
  let out := fst (get_labels cfg b) in
  (forall kind msg,
      http_get b (labels_request cfg) = GetFails kind msg ->
      out = Exc (Exn (LokiClientError
                   ("Failed to fetch labels from Loki: " ++ msg))))
  /\ (forall r,
      http_get b (labels_request cfg) = GetResponds r ->
      400 <= g_status r < 600 ->
      out = Exc (Exn (LokiClientError
                   ("Failed to fetch labels from Loki: "
                      ++ http_error_msg {| status_code := g_status r;
                                           reason := g_reason r;
                                           resp_url := g_url r |}))))
  /\ (forall r kind msg,
      http_get b (labels_request cfg) = GetResponds r ->
      ~ 400 <= g_status r < 600 ->
      g_json r = Exc (Exn (RequestException kind msg)) ->
      out = Exc (Exn (LokiClientError
                   ("Failed to fetch labels from Loki: " ++ msg))))
  /\ (forall r msg,
      http_get b (labels_request cfg) = GetResponds r ->
      ~ 400 <= g_status r < 600 ->
      g_json r = Exc (Exn (ValueError msg)) ->
      out = Exc (Exn (LokiClientError
                   ("Invalid response format from Loki: " ++ msg)))).
Proof.
  cbv zeta. unfold get_labels. rewrite fetch_run. cbv zeta.
  unfold get_loki_labels_url, LOKI_LABELS_ENDPOINT.
  change {| get_url := LOKI_URL cfg ++ "/loki/api/v1/labels";
            get_params := []; get_timeout := 10 |}
    with (labels_request cfg).
  simpl fst. repeat split.
  - intros kind msg ->. reflexivity.
  - intros r -> Hs. apply error_status_iff in Hs. rewrite Hs. reflexivity.
  - intros r kind msg -> Hs Hj.
    destruct (is_error_status (g_status r)) eqn:E;
      [apply error_status_iff in E; tauto|].
    rewrite Hj. reflexivity.
  - intros r msg -> Hs Hj.
    destruct (is_error_status (g_status r)) eqn:E;
      [apply error_status_iff in E; tauto|].
    rewrite Hj. reflexivity.
Qed.

(** X3. When the answer to [get_labels] is a JSON object (and the status
    is no 4xx or 5xx one), the result is the value under ["data"], passed
    on as it is, and the empty list when the object has no ["data"]; no
    error is raised. *)
Theorem get_labels_object_body (cfg : Config) (b : Backend)
    (r : GetResponse) (d : list (string * json)) :
  http_get b (labels_request cfg) = GetResponds r ->
  ~ 400 <= g_status r < 600 ->
  g_json r = Val (JDict d) ->
  fst (get_labels cfg b)
  = Val (match dict_lookup "data" d with
         | Some v => v
         | None => JList []
         end).
Proof.
  intros Hr Hs Hj. unfold get_labels. rewrite fetch_run. cbv zeta.
  unfold get_loki_labels_url, LOKI_LABELS_ENDPOINT.
  change {| get_url := LOKI_URL cfg ++ "/loki/api/v1/labels";
            get_params := []; get_timeout := 10 |}
    with (labels_request cfg).
  rewrite Hr. simpl fst.
  destruct (is_error_status (g_status r)) eqn:E;
    [apply error_status_iff in E; tauto|].
  rewrite Hj. reflexivity.
Qed.

Lemma get_labels_object_body_witness :
  fst (get_labels config
         (backend_answering
            (JDict [("status", JStr "success");
                    ("data", JList [JStr "app"; JStr "env"])])))
  = Val (JList [JStr "app"; JStr "env"])
  /\ fst (get_labels config (backend_answering (JDict [])))
     = Val (JList []).
Proof.
  split.
  - apply (get_labels_object_body config
             (backend_answering
                (JDict [("status", JStr "success");
                        ("data", JList [JStr "app"; JStr "env"])]))
             {| g_status := 200; g_reason := "OK";
                g_url := "http://localhost:3100/loki/api/v1/labels";
                g_json := Val (JDict [("status", JStr "success");
                                      ("data", JList [JStr "app"; JStr "env"])])
             |}
             [("status", JStr "success");
              ("data", JList [JStr "app"; JStr "env"])]);
      [reflexivity | simpl; lia | reflexivity].
  - apply (get_labels_object_body config (backend_answering (JDict []))
             {| g_status := 200; g_reason := "OK";
                g_url := "http://localhost:3100/loki/api/v1/labels";
                g_json := Val (JDict []) |} []);
      [reflexivity | simpl; lia | reflexivity].
Defined.

(** X4. When the answer to [get_labels] decodes to [null], a boolean or
    a number, the membership test on it raises a [TypeError], which none
    of the [except] clauses catches: the caller gets a [TypeError], not a
    [LokiClientError]. *)
Theorem get_labels_scalar_body (cfg : Config) (b : Backend)
    (r : GetResponse) (j : json) :
  http_get b (labels_request cfg) = GetResponds r ->
  ~ 400 <= g_status r < 600 ->
  g_json r = Val j ->
  match j with JNull | JBool _ | JInt _ => True | _ => False end ->
  exists msg, fst (get_labels cfg b) = Exc (TypeError msg).
Proof.
  intros Hr Hs Hj Hscalar. unfold get_labels. rewrite fetch_run. cbv zeta.
  unfold get_loki_labels_url, LOKI_LABELS_ENDPOINT.
  change {| get_url := LOKI_URL cfg ++ "/loki/api/v1/labels";
            get_params := []; get_timeout := 10 |}
    with (labels_request cfg).
  rewrite Hr. simpl fst.
  destruct (is_error_status (g_status r)) eqn:E;
    [apply error_status_iff in E; tauto|].
  rewrite Hj. destruct j; try contradiction; eauto.
Qed.

Lemma get_labels_scalar_body_witness :
  exists msg, fst (get_labels config (backend_answering JNull))
              = Exc (TypeError msg).
Proof.
  apply (get_labels_scalar_body config (backend_answering JNull)
           {| g_status := 200; g_reason := "OK";
              g_url := "http://localhost:3100/loki/api/v1/labels";
              g_json := Val JNull |} JNull);
    [reflexivity | simpl; lia | reflexivity | exact I].
Defined.

(** X5. [get_label_values] makes exactly one GET request, to
    [<LOKI_URL>/loki/api/v1/label/<label_name>/values] with the label name
    put in as it is, and treats the answer as [get_labels] does: the
    value under ["data"] of a JSON object or the empty list, and
    ["Failed to fetch label values from Loki: <cause>"] for a transport
    failure. *)
Theorem get_label_values_request (cfg : Config) (label_name : string)
    (b : Backend) :
  let rq := {| get_url := LOKI_URL cfg ++ "/loki/api/v1/label/"
                            ++ label_name ++ "/values";
               get_params := []; get_timeout := 10 |} in
  let out := fst (get_label_values cfg label_name b) in
  snd (get_label_values cfg label_name b)
  = {| world := world b; http_get := http_get b;
       got := (got b ++ [rq])%list |}
  /\ (forall kind msg,
      http_get b rq = GetFails kind msg ->
      out = Exc (Exn (LokiClientError
                   ("Failed to fetch label values from Loki: " ++ msg))))
  /\ (forall r d,
      http_get b rq = GetResponds r ->
      ~ 400 <= g_status r < 600 ->
      g_json r = Val (JDict d) ->
      out = Val (match dict_lookup "data" d with
                 | Some v => v
                 | None => JList []
                 end)).
Proof.
  cbv zeta. unfold get_label_values. rewrite fetch_run. cbv zeta.
  unfold get_loki_label_values_url. simpl fst. simpl snd.
  split; [reflexivity|]. split.
  - intros kind msg ->. reflexivity.
  - intros r d -> Hs Hj.
    destruct (is_error_status (g_status r)) eqn:E;
      [apply error_status_iff in E; tauto|].
    rewrite Hj. reflexivity.
Qed.

(** ** Querying logs *)

Lemma prefix_colon (s : string) :
  String.prefix ":" s
  = match s with
    | EmptyString => false
    | String a _ => Ascii.eqb a ":"
    end.
Proof.
  destruct s as [|a s]; [reflexivity|].
  change (String.prefix ":" (String a s))
    with (if ascii_dec ":" a then String.prefix "" s else false).
  destruct (ascii_dec ":" a) as [<-|Hne].
  - destruct s; reflexivity.
  - symmetry. apply Ascii.eqb_neq. congruence.
Qed.

Lemma has_substring_colon (s : string) :
  str_has_substring ":" s = str_contains ":" s.
Proof.
  induction s as [|a s IH].
  - reflexivity.
  - change (str_has_substring ":" (String a s))
      with (if String.prefix ":" (String a s) then true
            else str_has_substring ":" s).
    rewrite prefix_colon. simpl. rewrite IH. reflexivity.
Qed.

Lemma logql_of_str (lib : PyLib) (s : string) :
  logql_of_label lib (JStr s)
  = Val (match str_cut ":" s with
         | (k, Some v) => "{" ++ k ++ "=" ++ dquote ++ v ++ dquote ++ "}"
         | (_, None) => "{" ++ s ++ "}"
         end).
Proof.
  unfold logql_of_label. simpl. rewrite has_substring_colon.
  destruct (str_contains ":" s) eqn:E.
  - destruct (str_cut_present _ _ E) as (k & v & Hcut & _ & _).
    rewrite (split1_present _ _ _ Hcut), Hcut. reflexivity.
  - rewrite (str_cut_absent _ _ E). reflexivity.
Qed.

(** X6. For a label that is a string, the LogQL selector of
    [query_logs] is [{k="v"}] where [k] is the text before the first
    [":"] of the label and [v] everything after it (further colons stay
    in the value), and [{label}] when the label has no [":"]; building it
    never fails. *)
Theorem logql_of_label_splits (lib : PyLib) (s : string) :
  if str_contains ":" s
  then exists k v,
      s = k ++ ":" ++ v /\ str_contains ":" k = false
      /\ logql_of_label lib (JStr s)
         = Val ("{" ++ k ++ "=" ++ dquote ++ v ++ dquote ++ "}")
  else logql_of_label lib (JStr s) = Val ("{" ++ s ++ "}").
Proof.
  rewrite logql_of_str.
  destruct (str_contains ":" s) eqn:E.
  - destruct (str_cut_present _ _ E) as (k & v & Hcut & Hs & Hk).
    exists k, v. rewrite Hcut. auto.
  - rewrite (str_cut_absent _ _ E). reflexivity.
Qed.

(** One run of [query_logs] once the selector is built. *)
Lemma query_logs_run (lib : PyLib) (cfg : Config)
    (label start_time end_time : json) (q : string) (b : Backend) :
  logql_of_label lib label = Val q ->
  let rq := logs_request cfg q start_time end_time in
  query_logs lib cfg label start_time end_time b
  = (match http_get b rq with
     | GetFails _ msg =>
         Exc (Exn (LokiClientError ("Failed to query logs from Loki: " ++ msg)))
     | GetResponds r =>
         if is_error_status (g_status r) then
           Exc (Exn (LokiClientError
                  ("Failed to query logs from Loki: "
                     ++ http_error_msg {| status_code := g_status r;
                                          reason := g_reason r;
                                          resp_url := g_url r |})))
         else
           match g_json r with
           | Exc e => Exc (query_failure e)
           | Val data =>
               match parse_logs lib data with
               | Val logs => Val (JList logs)
               | Exc e => Exc (query_failure e)
               end
           end
     end, after_get rq b).
Proof.
  intros Hq. cbv zeta.
  unfold query_logs, b_try, b_bind, b_lift, requests_get,
    get_raise_for_status, b_raise, b_ret, logs_request, after_get,
    get_loki_query_url, LOKI_QUERY_ENDPOINT, is_error_status.
  rewrite Hq. cbv zeta.
  destruct (http_get b _) as [r|kind msg]; [|reflexivity].
  destruct ((400 <=? g_status r) && (g_status r <? 600)); [reflexivity|].
  destruct (g_json r) as [data|e]; simpl.
  - destruct (parse_logs lib data) as [logs|e]; [reflexivity|].
    destruct e as [[]| | | | |]; reflexivity.
  - destruct e as [[]| | | | |]; reflexivity.
Qed.

Lemma query_params_lookup (q : string) (start_time end_time : json)
    (key : string) :
  dict_lookup key (query_params q start_time end_time)
  = if String.eqb "query" key then Some (JStr q)
    else if String.eqb "start" key
         then (if truthy start_time then Some start_time
               else None)
         else if String.eqb "end" key
              then (if truthy end_time then Some end_time else None)
              else None.
Proof.
  unfold query_params.
  destruct (truthy start_time), (truthy end_time);
    cbn [app dict_lookup];
    destruct (String.eqb "query" key) eqn:Eq; try reflexivity;
    destruct (String.eqb "start" key) eqn:Es; try reflexivity;
    try (apply String.eqb_eq in Es; subst key; reflexivity);
    destruct (String.eqb "end" key); reflexivity.
Qed.

(** X7. For a string label, [query_logs] makes exactly one GET request,
    to [<LOKI_URL>/loki/api/v1/query_range] with timeout 10, whatever the
    answer is. Its parameters hold the selector under ["query"], the
    start time under ["start"] exactly when one is given that is not
    empty, the end time under ["end"] likewise, and nothing else. *)
Theorem query_logs_request (lib : PyLib) (cfg : Config) (s : string)
    (start_time end_time : json) (b : Backend) :
  exists q params,
    logql_of_label lib (JStr s) = Val q
    /\ snd (query_logs lib cfg (JStr s) start_time end_time b)
       = {| world := world b; http_get := http_get b;
            got := (got b
                    ++ [ {| get_url := LOKI_URL cfg ++ "/loki/api/v1/query_range";
                            get_params := params;
                            get_timeout := 10 |} ])%list |}
    /\ dict_lookup "query" params = Some (JStr q)
    /\ dict_lookup "start" params
       = (if truthy start_time then Some start_time else None)
    /\ dict_lookup "end" params
       = (if truthy end_time then Some end_time else None)
    /\ forall key, key <> "query" -> key <> "start" -> key <> "end" ->
                   dict_lookup key params = None.
Proof.
  pose proof (logql_of_str lib s) as Hq.
  eexists. exists (query_params
                     (match str_cut ":" s with
                      | (k, Some v) =>
                          "{" ++ k ++ "=" ++ dquote ++ v ++ dquote ++ "}"
                      | (_, None) => "{" ++ s ++ "}"
                      end) start_time end_time).
  split; [exact Hq|].
  rewrite (query_logs_run lib cfg (JStr s) start_time end_time _ b Hq).
  split; [reflexivity|].
  do 3 (split; [rewrite query_params_lookup; reflexivity|]).
  intros key H1 H2 H3. rewrite query_params_lookup.
  destruct (String.eqb "query" key) eqn:E1;
    [apply String.eqb_eq in E1; congruence|].
  destruct (String.eqb "start" key) eqn:E2;
    [apply String.eqb_eq in E2; congruence|].
  destruct (String.eqb "end" key) eqn:E3;
    [apply String.eqb_eq in E3; congruence|].
  reflexivity.
Qed.

(** The entry of a value that begins with the line [tm], in a stream
    with [labels]. *)
Lemma log_entry_line (lib : PyLib) (labels : json) (tm : json * json)
    (value : json) (iso : string) :
  value_of tm value ->
  isoformat_of_ns lib (fst tm) = Val iso ->
  log_entry lib labels value
  = Val (JDict [("timestamp", JStr iso); ("message", snd tm);
                ("labels", labels)]).
Proof.
  intros [more ->] H. unfold log_entry. simpl. rewrite H. reflexivity.
Qed.

Lemma log_entry_short (lib : PyLib) (labels : json) (l : list json) :
  (List.length l < 2)%nat ->
  log_entry lib labels (JList l) = Exc (IndexError "list index out of range").
Proof.
  intros H. destruct l as [|x [|y l]]; simpl in H; try lia; reflexivity.
Qed.

Lemma values_entries (lib : PyLib) (iso : json -> string) (labels : json)
    (lines : list (json * json)) (values : list json) :
  Forall2 value_of lines values ->
  Forall (fun tm => isoformat_of_ns lib (fst tm) = Val (iso (fst tm))) lines ->
  res_map (log_entry lib labels) values
  = Val (map (fun tm => JDict [("timestamp", JStr (iso (fst tm)));
                               ("message", snd tm); ("labels", labels)])
           lines).
Proof.
  induction 1 as [|tm value lines values Hv _ IH]; intros Hiso; simpl;
    [reflexivity|].
  inversion Hiso as [|? ? Htm Hrest]; subst.
  rewrite (log_entry_line lib labels tm value _ Hv Htm). simpl.
  rewrite (IH Hrest). reflexivity.
Qed.

Lemma stream_entries_lines (lib : PyLib) (iso : json -> string)
    (st : json * list (json * json)) (stream : json) :
  stream_of st stream ->
  Forall (fun tm => isoformat_of_ns lib (fst tm) = Val (iso (fst tm)))
    (snd st) ->
  stream_entries lib stream
  = Val (map (fun tm => JDict [("timestamp", JStr (iso (fst tm)));
                               ("message", snd tm); ("labels", fst st)])
           (snd st)).
Proof.
  intros (sd & values & -> & Hl & Hv & Hvalues) Hiso.
  unfold stream_entries. cbn [py_get res_bind]. rewrite Hl, Hv.
  cbn [py_iter res_bind].
  exact (values_entries lib iso (fst st) (snd st) values Hvalues Hiso).
Qed.

Lemma streams_entries (lib : PyLib) (iso : json -> string)
    (streams : list (json * list (json * json))) (result : list json) :
  Forall2 stream_of streams result ->
  Forall (fun st =>
            Forall (fun tm => isoformat_of_ns lib (fst tm) = Val (iso (fst tm)))
              (snd st)) streams ->
  res_map (stream_entries lib) result
  = Val (map (fun st =>
                map (fun tm => JDict [("timestamp", JStr (iso (fst tm)));
                                      ("message", snd tm);
                                      ("labels", fst st)])
                  (snd st)) streams).
Proof.
  induction 1 as [|st stream streams result Hst _ IH]; intros Hiso; simpl;
    [reflexivity|].
  inversion Hiso as [|? ? Hlines Hrest]; subst.
  rewrite (stream_entries_lines lib iso st stream Hst Hlines). simpl.
  rewrite (IH Hrest). reflexivity.
Qed.

Lemma parse_logs_result (lib : PyLib) (data : json) (result : list json) :
  result_of result data ->
  parse_logs lib data
  = res_bind (res_map (stream_entries lib) result) (fun per_stream =>
    Val (concat per_stream)).
Proof.
  intros (d & inner & -> & Hd & Hr). unfold parse_logs.
  cbn [py_contains py_getitem res_bind]. rewrite Hd.
  cbn [py_contains py_getitem res_bind]. rewrite Hr.
  cbn [py_iter res_bind]. reflexivity.
Qed.

Lemma query_logs_of_streams (lib : PyLib) (cfg : Config) (s : string)
    (start_time end_time : json) (b : Backend) (q : string)
    (r : GetResponse) (data : json)
    (streams : list (json * list (json * json))) (iso : json -> string) :
  logql_of_label lib (JStr s) = Val q ->
  http_get b (logs_request cfg q start_time end_time) = GetResponds r ->
  ~ 400 <= g_status r < 600 ->
  g_json r = Val data ->
  answer_of streams data ->
  Forall (fun st =>
            Forall (fun tm => isoformat_of_ns lib (fst tm) = Val (iso (fst tm)))
              (snd st)) streams ->
  query_logs lib cfg (JStr s) start_time end_time b
  = (Val (JList (entries_of iso streams)),
     after_get (logs_request cfg q start_time end_time) b).
Proof.
  intros Hq Hr Hs Hj (result & Hres & Hstreams) Hiso.
  rewrite (query_logs_run lib cfg (JStr s) start_time end_time q b Hq).
  cbv zeta. rewrite Hr.
  destruct (is_error_status (g_status r)) eqn:E;
    [apply error_status_iff in E; tauto|].
  rewrite Hj, (parse_logs_result lib data result Hres).
  rewrite (streams_entries lib iso streams result Hstreams Hiso).
  simpl. unfold entries_of. rewrite flat_map_concat_map. reflexivity.
Qed.

Lemma sample_answer_shape : answer_of sample_streams sample_answer.
Proof.
  eexists. split.
  - do 2 eexists. split; [reflexivity|]. split; reflexivity.
  - constructor; [|constructor].
    do 2 eexists. split; [reflexivity|]. split; [reflexivity|].
    split; [reflexivity|].
    constructor; [exists []; reflexivity|].
    constructor; [exists []; reflexivity|]. constructor.
Defined.

Lemma sample_streams_convert :
  Forall (fun st =>
            Forall (fun tm =>
                      isoformat_of_ns sample_lib (fst tm)
                      = Val (sample_iso (fst tm))) (snd st)) sample_streams.
Proof. repeat constructor. Defined.

(** X8. When Loki answers [query_logs] with an object whose
    [data.result] lists streams of timestamped lines, and the timestamps
    all convert, the result lists one entry per line, stream after stream
    and line after line in the order of the answer, each with the
    converted timestamp, the line as it is and the labels of its stream;
    so it has as many entries as the answer has lines. Other keys of the
    answer, of its [data] and of its streams are not read. *)
Theorem query_logs_flattens (lib : PyLib) (cfg : Config) (s : string)
    (start_time end_time : json) (b : Backend) (q : string)
    (r : GetResponse) (data : json)
    (streams : list (json * list (json * json))) (iso : json -> string) :
  logql_of_label lib (JStr s) = Val q ->
  http_get b (logs_request cfg q start_time end_time) = GetResponds r ->
  ~ 400 <= g_status r < 600 ->
  g_json r = Val data ->
  answer_of streams data ->
  Forall (fun st =>
            Forall (fun tm => isoformat_of_ns lib (fst tm) = Val (iso (fst tm)))
              (snd st)) streams ->
  fst (query_logs lib cfg (JStr s) start_time end_time b)
  = Val (JList
           (flat_map
              (fun st =>
                 map (fun tm => JDict [("timestamp", JStr (iso (fst tm)));
                                       ("message", snd tm);
                                       ("labels", fst st)])
                   (snd st))
              streams)).
Proof.
  intros Hq Hr Hs Hj Hshape Hiso.
  rewrite (query_logs_of_streams lib cfg s start_time end_time b q r data
             streams iso Hq Hr Hs Hj Hshape Hiso).
  reflexivity.
Qed.

Lemma query_logs_flattens_witness :
  fst (query_logs sample_lib config (JStr "app:main") JNull JNull
         (backend_answering sample_answer))
  = Val (JList
           [ JDict [("timestamp", JStr "iso:1700000000000000000");
                    ("message", JStr "[INFO] boot complete");
                    ("labels", JDict [("app", JStr "main")])];
             JDict [("timestamp", JStr "iso:1700000000000000001");
                    ("message", JStr "[ERROR] lost");
                    ("labels", JDict [("app", JStr "main")])] ]).
Proof.
  apply (query_logs_flattens sample_lib config "app:main" JNull JNull
           (backend_answering sample_answer)
           ("{app=" ++ dquote ++ "main" ++ dquote ++ "}")
           {| g_status := 200; g_reason := "OK";
              g_url := "http://localhost:3100/loki/api/v1/query_range";
              g_json := Val sample_answer |}
           sample_answer sample_streams sample_iso).
  - reflexivity.
  - reflexivity.
  - simpl. lia.
  - reflexivity.
  - exact sample_answer_shape.
  - exact sample_streams_convert.
Defined.

(** X9. When the answer to [query_logs] is a JSON object without
    ["data"], or whose ["data"] is an object without ["result"], the
    result is the empty list and no error is raised. *)
Theorem query_logs_no_result (lib : PyLib) (cfg : Config) (s : string)
    (start_time end_time : json) (b : Backend) (q : string)
    (r : GetResponse) (d : list (string * json)) :
  logql_of_label lib (JStr s) = Val q ->
  http_get b (logs_request cfg q start_time end_time) = GetResponds r ->
  ~ 400 <= g_status r < 600 ->
  g_json r = Val (JDict d) ->
  (dict_lookup "data" d = None
   \/ exists inner, dict_lookup "data" d = Some (JDict inner)
                    /\ dict_lookup "result" inner = None) ->
  fst (query_logs lib cfg (JStr s) start_time end_time b) = Val (JList []).
Proof.
  intros Hq Hr Hs Hj Hshape.
  rewrite (query_logs_run lib cfg (JStr s) start_time end_time q b Hq).
  cbv zeta. rewrite Hr. simpl fst.
  destruct (is_error_status (g_status r)) eqn:E;
    [apply error_status_iff in E; tauto|].
  rewrite Hj. unfold parse_logs. cbn [py_contains py_getitem res_bind].
  destruct Hshape as [Hd|(inner & Hd & Hres)]; rewrite Hd.
  - reflexivity.
  - cbn [py_contains py_getitem res_bind]. rewrite Hres. reflexivity.
Qed.

Lemma query_logs_no_result_witness :
  fst (query_logs sample_lib config (JStr "app:main") JNull JNull
         (backend_answering (JDict [("status", JStr "success")])))
  = Val (JList [])
  /\ fst (query_logs sample_lib config (JStr "app:main") JNull JNull
            (backend_answering
               (JDict [("data", JDict [("resultType", JStr "streams")])])))
     = Val (JList []).
Proof.
  split.
  - apply (query_logs_no_result sample_lib config "app:main" JNull JNull
             (backend_answering (JDict [("status", JStr "success")]))
             ("{app=" ++ dquote ++ "main" ++ dquote ++ "}")
             {| g_status := 200; g_reason := "OK";
                g_url := "http://localhost:3100/loki/api/v1/query_range";
                g_json := Val (JDict [("status", JStr "success")]) |}
             [("status", JStr "success")]);
      [reflexivity | reflexivity | simpl; lia | reflexivity
      | left; reflexivity].
  - apply (query_logs_no_result sample_lib config "app:main" JNull JNull
             (backend_answering
                (JDict [("data", JDict [("resultType", JStr "streams")])]))
             ("{app=" ++ dquote ++ "main" ++ dquote ++ "}")
             {| g_status := 200; g_reason := "OK";
                g_url := "http://localhost:3100/loki/api/v1/query_range";
                g_json :=
                  Val (JDict [("data", JDict [("resultType", JStr "streams")])])
             |}
             [("data", JDict [("resultType", JStr "streams")])]);
      [reflexivity | reflexivity | simpl; lia | reflexivity
      | right; exists [("resultType", JStr "streams")]; split; reflexivity].
Defined.

Lemma res_map_raises {A C} (f : A -> res C) (l1 l2 : list A) (a : A)
    (v : list C) (e : exc) :
  res_map f l1 = Val v -> f a = Exc e -> res_map f (l1 ++ a :: l2) = Exc e.
Proof.
  revert v. induction l1 as [|a1 l1 IH]; simpl; intros v Hv Hf.
  - rewrite Hf. reflexivity.
  - destruct (f a1) as [c|e1]; simpl in *; [|discriminate].
    destruct (res_map f l1) as [cs|e1] eqn:E; simpl in *; [|discriminate].
    rewrite (IH cs eq_refl Hf). reflexivity.
Qed.

Lemma stream_entries_short (lib : PyLib) (iso : json -> string)
    (sd : list (string * json)) (lines : list (json * json))
    (good short rest : list json) :
  match dict_lookup "values" sd with
  | Some v => v
  | None => JList []
  end = JList (good ++ JList short :: rest)%list ->
  Forall2 value_of lines good ->
  Forall (fun tm => isoformat_of_ns lib (fst tm) = Val (iso (fst tm))) lines ->
  (List.length short < 2)%nat ->
  stream_entries lib (JDict sd) = Exc (IndexError "list index out of range").
Proof.
  intros Hv Hgood Hlines Hshort.
  unfold stream_entries. cbn [py_get res_bind]. rewrite Hv.
  cbn [py_iter res_bind].
  exact (res_map_raises _ _ rest (JList short) _ _
           (values_entries lib iso _ lines good Hgood Hlines)
           (log_entry_short lib _ short Hshort)).
Qed.

(** X10. [query_logs] gives all the lines or none: when some value of
    some stream under [data.result] of the answer has fewer than two
    elements, the call raises [LokiClientError] with the text [Invalid
    response format from Loki: list index out of range], whatever
    well-formed lines and streams come before it, whatever comes after
    it and whatever other keys the answer has. *)
Theorem query_logs_short_value (lib : PyLib) (cfg : Config) (s : string)
    (start_time end_time : json) (b : Backend) (q : string)
    (r : GetResponse) (data : json)
    (before : list (json * list (json * json))) (raw_before : list json)
    (sd : list (string * json)) (lines : list (json * json))
    (good short rest after : list json) (iso : json -> string) :
  logql_of_label lib (JStr s) = Val q ->
  http_get b (logs_request cfg q start_time end_time) = GetResponds r ->
  ~ 400 <= g_status r < 600 ->
  g_json r = Val data ->
  result_of (raw_before ++ JDict sd :: after)%list data ->
  Forall2 stream_of before raw_before ->
  Forall (fun st =>
            Forall (fun tm => isoformat_of_ns lib (fst tm) = Val (iso (fst tm)))
              (snd st)) before ->
  match dict_lookup "values" sd with
  | Some v => v
  | None => JList []
  end = JList (good ++ JList short :: rest)%list ->
  Forall2 value_of lines good ->
  Forall (fun tm => isoformat_of_ns lib (fst tm) = Val (iso (fst tm))) lines ->
  (List.length short < 2)%nat ->
  fst (query_logs lib cfg (JStr s) start_time end_time b)
  = Exc (Exn (LokiClientError
                "Invalid response format from Loki: list index out of range")).
Proof.
  intros Hq Hr Hs Hj Hres Hbefore Hiso Hv Hgood Hlines Hshort.
  rewrite (query_logs_run lib cfg (JStr s) start_time end_time q b Hq).
  cbv zeta. rewrite Hr. simpl fst.
  destruct (is_error_status (g_status r)) eqn:E;
    [apply error_status_iff in E; tauto|].
  rewrite Hj, (parse_logs_result lib data _ Hres).
  rewrite (res_map_raises _ _ after _ _ _
             (streams_entries lib iso before raw_before Hbefore Hiso)
             (stream_entries_short lib iso sd lines good short rest
                Hv Hgood Hlines Hshort)).
  reflexivity.
Qed.

Lemma query_logs_short_value_witness :
  fst (query_logs sample_lib config (JStr "app:main") JNull JNull
         (backend_answering sample_short_answer))
  = Exc (Exn (LokiClientError
                "Invalid response format from Loki: list index out of range")).
Proof.
  apply (query_logs_short_value sample_lib config "app:main" JNull JNull
           (backend_answering sample_short_answer)
           ("{app=" ++ dquote ++ "main" ++ dquote ++ "}")
           {| g_status := 200; g_reason := "OK";
              g_url := "http://localhost:3100/loki/api/v1/query_range";
              g_json := Val sample_short_answer |}
           sample_short_answer
           [ (JDict [("app", JStr "main")],
              [(JStr "1700000000000000000", JStr "first")]) ]
           [ JDict
               [("stream", JDict [("app", JStr "main")]);
                ("values",
                 JList [ JList [JStr "1700000000000000000"; JStr "first"] ])] ]
           [("stream", JDict [("app", JStr "main")]);
            ("values",
             JList [ JList [JStr "1700000000000000001"; JStr "second"];
                     JList [JStr "1700000000000000002"] ])]
           [ (JStr "1700000000000000001", JStr "second") ]
           [ JList [JStr "1700000000000000001"; JStr "second"] ]
           [ JStr "1700000000000000002" ] [] [] sample_iso).
  - reflexivity.
  - reflexivity.
  - simpl. lia.
  - reflexivity.
  - do 2 eexists. split; [reflexivity|]. split; reflexivity.
  - constructor; [|constructor].
    do 2 eexists. split; [reflexivity|]. split; [reflexivity|].
    split; [reflexivity|].
    constructor; [exists []; reflexivity|constructor].
  - repeat constructor.
  - reflexivity.
  - constructor; [exists []; reflexivity|constructor].
  - repeat constructor.
  - simpl. lia.
Defined.

(** ** The views *)

Lemma b_log_info (message : string) (b : Backend) :
  b_log info message b = (Val tt, after_log "INFO" message b).
Proof. reflexivity. Qed.

Lemma b_log_warning (message : string) (b : Backend) :
  b_log warning message b = (Val tt, after_log "WARNING" message b).
Proof. reflexivity. Qed.

Lemma view_handler_run (loki_log loki_message view_name : string) (e : exc)
    (b : Backend) :
  exists h,
    view_handler loki_log loki_message view_name e = Some h
    /\ h b
       = match e with
         | Exn (LokiClientError cause) =>
             (Val (loki_error_body loki_message, 500),
              after_log "ERROR" (loki_log ++ cause) b)
         | _ =>
             (Val (internal_error_body, 500),
              after_log "ERROR"
                ("Unexpected error in " ++ view_name ++ ": " ++ str_of_exc e) b)
         end.
Proof.
  destruct e as [[]| | | | |]; eexists; (split; [reflexivity|]); reflexivity.
Qed.

(** What a view that fetches a list makes of the client's call. *)
Lemma fetch_view_run (intro : string) (call : B json) (done : Z -> string)
    (loki_log loki_message view_name : string) (b : Backend) :
  b_try
    (b_log info intro;;~
     v <~ call;;
     count <~ b_lift (py_len v);;
     b_log info (done count);;~
     b_ret (create_success_response v, 200))
    (view_handler loki_log loki_message view_name) b
  = match call (after_log "INFO" intro b) with
    | (Val v, b2) =>
        match py_len v with
        | Val n =>
            (Val (create_success_response v, 200),
             after_log "INFO" (done n) b2)
        | Exc e =>
            (Val (internal_error_body, 500),
             after_log "ERROR"
               ("Unexpected error in " ++ view_name ++ ": " ++ str_of_exc e)
               b2)
        end
    | (Exc (Exn (LokiClientError cause)), b2) =>
        (Val (loki_error_body loki_message, 500),
         after_log "ERROR" (loki_log ++ cause) b2)
    | (Exc e, b2) =>
        (Val (internal_error_body, 500),
         after_log "ERROR"
           ("Unexpected error in " ++ view_name ++ ": " ++ str_of_exc e) b2)
    end.
Proof.
  unfold b_try, b_bind at 1. rewrite b_log_info.
  unfold b_bind at 1.
  destruct (call (after_log "INFO" intro b)) as [[v|e] b2].
  - unfold b_bind at 1, b_lift at 1.
    destruct v; cbn [py_len]; try reflexivity;
      unfold b_bind; rewrite b_log_info; reflexivity.
  - destruct (view_handler_run loki_log loki_message view_name e b2)
      as (h & Hh & Hrun).
    rewrite Hh, Hrun. destruct e as [[]| | | | |]; reflexivity.
Qed.




(** What [get_loki_labels] makes of the client's outcome. *)
Lemma get_loki_labels_run (cfg : Config) (b : Backend) :
  routes.get_loki_labels cfg b
  = let b1 := after_log "INFO" "Fetching labels from Loki" b in
    let b2 := after_get (labels_request cfg) b1 in
    match fst (get_labels cfg b1) with
    | Val v =>
        match py_len v with
        | Val n =>
            (Val (create_success_response v, 200),
             after_log "INFO"
               ("Successfully retrieved " ++ str_of_int n
                  ++ " labels from Loki") b2)
        | Exc e =>
            (Val (internal_error_body, 500),
             after_log "ERROR"
               ("Unexpected error in get_loki_labels: " ++ str_of_exc e) b2)
        end
    | Exc (Exn (LokiClientError cause)) =>
        (Val (loki_error_body "Failed to retrieve labels", 500),
         after_log "ERROR" ("Failed to fetch labels from Loki: " ++ cause) b2)
    | Exc e =>
        (Val (internal_error_body, 500),
         after_log "ERROR"
           ("Unexpected error in get_loki_labels: " ++ str_of_exc e) b2)
    end.
Proof.
  unfold routes.get_loki_labels.
  rewrite (fetch_view_run "Fetching labels from Loki" (get_labels cfg)
             (fun n => "Successfully retrieved " ++ str_of_int n
                       ++ " labels from Loki")).
  cbv zeta.
  assert (Hsnd : snd (get_labels cfg
                        (after_log "INFO" "Fetching labels from Loki" b))
                 = after_get (labels_request cfg)
                     (after_log "INFO" "Fetching labels from Loki" b)).
  { unfold get_labels. rewrite fetch_run. reflexivity. }
  destruct (get_labels cfg (after_log "INFO" "Fetching labels from Loki" b))
    as [out b2].
  simpl in Hsnd. subst b2. reflexivity.
Qed.

(** X13. When Loki cannot be reached, or answers the labels request
    with a 4xx or 5xx status, [get_loki_labels] answers 500 with the
    envelope [Failed to retrieve labels] / [LOKI_ERROR]. The ERROR record
    it logs carries the prefix [Failed to fetch labels from Loki: ]
    twice, once from the client and once from the view, before the
    cause. *)
Theorem get_loki_labels_loki_down (cfg : Config) (b : Backend)
    (cause : string) :
  ((exists kind, http_get b (labels_request cfg) = GetFails kind cause)
   \/ (exists r, http_get b (labels_request cfg) = GetResponds r
                 /\ 400 <= g_status r < 600
                 /\ cause = http_error_msg {| status_code := g_status r;
                                              reason := g_reason r;
                                              resp_url := g_url r |})) ->
  routes.get_loki_labels cfg b
  = (Val (create_error_response "Failed to retrieve labels" "LOKI_ERROR", 500),
     after_log "ERROR"
       ("Failed to fetch labels from Loki: Failed to fetch labels from Loki: "
          ++ cause)
       (after_get (labels_request cfg)
          (after_log "INFO" "Fetching labels from Loki" b))).
Proof.
  intros H. rewrite get_loki_labels_run. cbv zeta.
  unfold get_labels. rewrite fetch_run. cbv zeta.
  change (http_get (after_log "INFO" "Fetching labels from Loki" b))
    with (http_get b).
  change {| get_url := get_loki_labels_url cfg; get_params := [];
            get_timeout := 10 |} with (labels_request cfg).
  destruct H as [[kind H]|(r & H & Hs & Hc)]; rewrite H; simpl fst.
  - reflexivity.
  - apply error_status_iff in Hs. rewrite Hs. subst cause. reflexivity.
Qed.

Lemma get_loki_labels_loki_down_witness :
  routes.get_loki_labels config
    {| world := started unreachable 0;
       http_get := fun _ => GetFails ConnectionError "Connection refused";
       got := [] |}
  = (Val (create_error_response "Failed to retrieve labels" "LOKI_ERROR", 500),
     after_log "ERROR"
       ("Failed to fetch labels from Loki: Failed to fetch labels from Loki: "
          ++ "Connection refused")
       (after_get (labels_request config)
          (after_log "INFO" "Fetching labels from Loki"
             {| world := started unreachable 0;
                http_get :=
                  fun _ => GetFails ConnectionError "Connection refused";
                got := [] |}))).
Proof.
  apply get_loki_labels_loki_down.
  left. exists ConnectionError. reflexivity.
Defined.

(** The labels [get_loki_labels] gets from an object answered with a
    non-error status. *)
Lemma get_labels_of_object (cfg : Config) (b : Backend) (r : GetResponse)
    (d : list (string * json)) (text : string) :
  http_get b (labels_request cfg) = GetResponds r ->
  ~ 400 <= g_status r < 600 ->
  g_json r = Val (JDict d) ->
  fst (get_labels cfg (after_log "INFO" text b))
  = Val (match dict_lookup "data" d with Some v => v | None => JList [] end).
Proof.
  intros Hr Hs Hj. unfold get_labels. rewrite fetch_run. cbv zeta.
  change (http_get (after_log "INFO" text b)) with (http_get b).
  change {| get_url := get_loki_labels_url cfg; get_params := [];
            get_timeout := 10 |} with (labels_request cfg).
  rewrite Hr. simpl fst.
  destruct (is_error_status (g_status r)) eqn:E;
    [apply error_status_iff in E; tauto|].
  rewrite Hj. reflexivity.
Qed.

(** X14. When Loki answers the labels request with a non-error status
    and an object whose ["data"] is a list, [get_loki_labels] answers 200
    with the envelope [{"status": "success", "data": <that list>}], the
    list as Loki gave it, and logs its length at INFO. *)
Theorem get_loki_labels_success (cfg : Config) (b : Backend)
    (r : GetResponse) (d : list (string * json)) (labels : list json) :
  http_get b (labels_request cfg) = GetResponds r ->
  ~ 400 <= g_status r < 600 ->
  g_json r = Val (JDict d) ->
  dict_lookup "data" d = Some (JList labels) ->
  routes.get_loki_labels cfg b
  = (Val (JDict [("status", JStr "success"); ("data", JList labels)], 200),
     after_log "INFO"
       ("Successfully retrieved "
          ++ str_of_int (Z.of_nat (List.length labels))
          ++ " labels from Loki")
       (after_get (labels_request cfg)
          (after_log "INFO" "Fetching labels from Loki" b))).
Proof.
  intros Hr Hs Hj Hd. rewrite get_loki_labels_run. cbv zeta.
  rewrite (get_labels_of_object cfg b r d _ Hr Hs Hj), Hd. reflexivity.
Qed.

Lemma get_loki_labels_success_witness :
  routes.get_loki_labels config
    (backend_answering
       (JDict [("status", JStr "success");
               ("data", JList [JStr "app"; JStr "host"])]))
  = (Val (JDict [("status", JStr "success");
                 ("data", JList [JStr "app"; JStr "host"])], 200),
     after_log "INFO" "Successfully retrieved 2 labels from Loki"
       (after_get (labels_request config)
          (after_log "INFO" "Fetching labels from Loki"
             (backend_answering
                (JDict [("status", JStr "success");
                        ("data", JList [JStr "app"; JStr "host"])]))))).
Proof.
  apply (get_loki_labels_success config _
           {| g_status := 200; g_reason := "OK";
              g_url := "http://localhost:3100/loki/api/v1/labels";
              g_json := Val (JDict [("status", JStr "success");
                                    ("data", JList [JStr "app"; JStr "host"])])
           |}
           [("status", JStr "success");
            ("data", JList [JStr "app"; JStr "host"])]
           [JStr "app"; JStr "host"]).
  - reflexivity.
  - simpl. lia.
  - reflexivity.
  - reflexivity.
Defined.

(** X15. When Loki answers the labels request with a non-error status
    and an object whose ["data"] is null, a boolean or a number,
    [get_loki_labels] answers 500 with the envelope
    [Internal server error] / [INTERNAL_ERROR]: the client passes the
    value on, [len] raises on it, and the view logs that at ERROR. *)
Theorem get_loki_labels_unsized_data (cfg : Config) (b : Backend)
    (r : GetResponse) (d : list (string * json)) (v : json) :
  http_get b (labels_request cfg) = GetResponds r ->
  ~ 400 <= g_status r < 600 ->
  g_json r = Val (JDict d) ->
  dict_lookup "data" d = Some v ->
  (v = JNull \/ (exists t, v = JBool t) \/ (exists n, v = JInt n)) ->
  routes.get_loki_labels cfg b
  = (Val (create_error_response "Internal server error" "INTERNAL_ERROR", 500),
     after_log "ERROR"
       ("Unexpected error in get_loki_labels: object of type '"
          ++ type_name v ++ "' has no len()")
       (after_get (labels_request cfg)
          (after_log "INFO" "Fetching labels from Loki" b))).
Proof.
  intros Hr Hs Hj Hd Hv. rewrite get_loki_labels_run. cbv zeta.
  rewrite (get_labels_of_object cfg b r d _ Hr Hs Hj), Hd.
  destruct Hv as [->|[[t ->]|[n ->]]]; reflexivity.
Qed.

Lemma get_loki_labels_unsized_data_witness :
  routes.get_loki_labels config
    (backend_answering (JDict [("status", JStr "success"); ("data", JNull)]))
  = (Val (create_error_response "Internal server error" "INTERNAL_ERROR", 500),
     after_log "ERROR"
       "Unexpected error in get_loki_labels: object of type 'NoneType' has no len()"
       (after_get (labels_request config)
          (after_log "INFO" "Fetching labels from Loki"
             (backend_answering
                (JDict [("status", JStr "success"); ("data", JNull)]))))).
Proof.
  apply (get_loki_labels_unsized_data config _
           {| g_status := 200; g_reason := "OK";
              g_url := "http://localhost:3100/loki/api/v1/labels";
              g_json := Val (JDict [("status", JStr "success");
                                    ("data", JNull)]) |}
           [("status", JStr "success"); ("data", JNull)] JNull).
  - reflexivity.
  - simpl. lia.
  - reflexivity.
  - reflexivity.
  - left. reflexivity.
Defined.

Lemma query_loki_logs_invalid (lib : PyLib) (cfg : Config)
    (get_json : res json) (b : Backend) :
  match get_json with
  | Exc _ => True
  | Val request_data =>
      truthy request_data = false
      \/ exists d, request_data = JDict d
                   /\ match dict_lookup "label" d with
                      | Some label => truthy label = false
                      | None => True
                      end
  end ->
  exists text,
    routes.query_loki_logs lib cfg get_json b
    = (Val (create_error_response
              match get_json with
              | Exc _ => "Invalid JSON in request body"
              | Val request_data =>
                  if truthy request_data then "Label parameter is required"
                  else "Request body is required"
              end "VALIDATION_ERROR", 400),
       after_log "WARNING" text b).
Proof.
  intros H. unfold routes.query_loki_logs, b_try.
  destruct get_json as [request_data|e].
  - destruct (truthy request_data) eqn:Ht; cbn [negb].
    + destruct H as [H|(d & -> & Hl)]; [discriminate|].
      unfold b_bind at 1, b_lift at 1. cbn [py_get].
      destruct (dict_lookup "label" d) as [label|].
      * rewrite Hl. cbn [negb]. unfold b_bind. rewrite b_log_warning.
        eexists. reflexivity.
      * cbn [truthy negb]. unfold b_bind. rewrite b_log_warning.
        eexists. reflexivity.
    + unfold b_bind. rewrite b_log_warning. eexists. reflexivity.
  - unfold b_bind. rewrite b_log_warning. eexists. reflexivity.
Qed.

(** X16. [query_loki_logs] rejects a request whose body cannot be
    parsed, whose parsed body is falsy (null, [false], [0], an empty
    string, list or object), or whose object has no ["label"] or a falsy
    one: it answers 400 with a [VALIDATION_ERROR] envelope, logs one
    WARNING record, and sends nothing to Loki. *)
Theorem query_loki_logs_rejects (lib : PyLib) (cfg : Config)
    (get_json : res json) (b : Backend) :
  match get_json with
  | Exc _ => True
  | Val request_data =>
      truthy request_data = false
      \/ exists d, request_data = JDict d
                   /\ match dict_lookup "label" d with
                      | Some label => truthy label = false
                      | None => True
                      end
  end ->
  exists message text,
    routes.query_loki_logs lib cfg get_json b
    = (Val (create_error_response message "VALIDATION_ERROR", 400),
       after_log "WARNING" text b)
    /\ got (after_log "WARNING" text b) = got b
    /\ message
       = match get_json with
         | Exc _ => "Invalid JSON in request body"
         | Val request_data =>
             if truthy request_data then "Label parameter is required"
             else "Request body is required"
         end.
Proof.
  intros H.
  destruct (query_loki_logs_invalid lib cfg get_json b H) as [text Hrun].
  eexists. exists text. split; [exact Hrun|]. split; reflexivity.
Qed.

Lemma query_loki_logs_rejects_witness :
  exists message text,
    routes.query_loki_logs sample_lib config
      (Val (JDict [("start_time", JStr "2024-01-01T00:00:00Z")]))
      (backend_answering sample_answer)
    = (Val (create_error_response message "VALIDATION_ERROR", 400),
       after_log "WARNING" text (backend_answering sample_answer))
    /\ got (after_log "WARNING" text (backend_answering sample_answer))
       = got (backend_answering sample_answer)
    /\ message = "Label parameter is required".
Proof.
  apply (query_loki_logs_rejects sample_lib config
           (Val (JDict [("start_time", JStr "2024-01-01T00:00:00Z")]))
           (backend_answering sample_answer)).
  right. eexists. split; [reflexivity|]. exact I.
Defined.

(** [query_logs] sends at most one request, and only when the selector
    could be built. *)
Lemma query_logs_state (lib : PyLib) (cfg : Config)
    (label start_time end_time : json) (b : Backend) :
  (exists e, logql_of_label lib label = Exc e
             /\ query_logs lib cfg label start_time end_time b
                = (Exc (query_failure e), b))
  \/ (exists q, logql_of_label lib label = Val q
                /\ snd (query_logs lib cfg label start_time end_time b)
                   = after_get (logs_request cfg q start_time end_time) b).
Proof.
  destruct (logql_of_label lib label) as [q|e] eqn:Hq.
  - right. exists q. split; [reflexivity|].
    rewrite (query_logs_run lib cfg label start_time end_time q b Hq).
    reflexivity.
  - left. exists e. split; [reflexivity|].
    unfold query_logs, b_try, b_bind, b_lift. rewrite Hq.
    destruct e as [[]| | | | |]; reflexivity.
Qed.

(** What [query_loki_logs] makes of a request with a label. *)
Lemma query_loki_logs_run (lib : PyLib) (cfg : Config)
    (d : list (string * json)) (label : json) (b : Backend) :
  truthy (JDict d) = true ->
  dict_lookup "label" d = Some label ->
  truthy label = true ->
  routes.query_loki_logs lib cfg (Val (JDict d)) b
  = let start_time :=
      match dict_lookup "start_time" d with Some v => v | None => JNull end in
    let end_time :=
      match dict_lookup "end_time" d with Some v => v | None => JNull end in
    match query_logs lib cfg label start_time end_time
            (after_log "INFO"
               (routes.query_log_msg lib label start_time end_time) b) with
    | (Val logs, b2) =>
        match py_len logs with
        | Val n =>
            (Val (create_success_response logs, 200),
             after_log "INFO"
               ("Successfully retrieved " ++ str_of_int n
                  ++ " log entries from Loki") b2)
        | Exc e =>
            (Val (internal_error_body, 500),
             after_log "ERROR"
               ("Unexpected error in query_loki_logs: " ++ str_of_exc e) b2)
        end
    | (Exc (Exn (LokiClientError cause)), b2) =>
        (Val (loki_error_body "Failed to query logs", 500),
         after_log "ERROR" ("Failed to query logs from Loki: " ++ cause) b2)
    | (Exc e, b2) =>
        (Val (internal_error_body, 500),
         after_log "ERROR"
           ("Unexpected error in query_loki_logs: " ++ str_of_exc e) b2)
    end.
Proof.
  intros Hd Hl Ht. cbv zeta.
  unfold routes.query_loki_logs. rewrite Hd. cbn [negb].
  unfold b_try, b_bind at 1, b_lift at 1. cbn [py_get]. rewrite Hl, Ht.
  cbn [negb].
  unfold b_bind at 1, b_lift at 1. cbn [py_get].
  unfold b_bind at 1, b_lift at 1. cbn [py_get].
  unfold b_bind at 1. rewrite b_log_info.
  unfold b_bind at 1.
  destruct (query_logs lib cfg label _ _ _) as [[logs|e] b2].
  - unfold b_bind at 1, b_lift at 1.
    destruct logs; cbn [py_len]; try reflexivity;
      unfold b_bind; rewrite b_log_info; reflexivity.
  - destruct e as [[]| | | | |]; reflexivity.
Qed.

(** X17. [query_loki_logs] never raises, whatever the request body and
    whatever Loki does: it answers 200 with a success envelope, 400 with
    a [VALIDATION_ERROR] envelope and nothing sent to Loki, or 500 with
    one of the two fixed envelopes [LOKI_ERROR] and [INTERNAL_ERROR]. It
    sends at most one request, to the [query_range] endpoint. *)
Theorem query_loki_logs_always_answers (lib : PyLib) (cfg : Config)
    (get_json : res json) (b : Backend) :
  exists body status b',
    routes.query_loki_logs lib cfg get_json b = (Val (body, status), b')
    /\ http_get b' = http_get b
    /\ (got b' = got b
        \/ exists q start_time end_time,
            got b'
            = (got b ++ [logs_request cfg q start_time end_time])%list)
    /\ ((status = 200 /\ exists logs, body = create_success_response logs)
        \/ (status = 400 /\ got b' = got b
            /\ exists message,
                body = create_error_response message "VALIDATION_ERROR")
        \/ (status = 500
            /\ (body = create_error_response "Failed to query logs"
                         "LOKI_ERROR"
                \/ body = create_error_response "Internal server error"
                            "INTERNAL_ERROR"))).
Proof.
  assert (Hrej : forall gj,
    match gj with
    | Exc _ => True
    | Val request_data =>
        truthy request_data = false
        \/ exists d, request_data = JDict d
                     /\ match dict_lookup "label" d with
                        | Some label => truthy label = false
                        | None => True
                        end
    end ->
    exists message text,
      routes.query_loki_logs lib cfg gj b
      = (Val (create_error_response message "VALIDATION_ERROR", 400),
         after_log "WARNING" text b)).
  { intros gj H.
    destruct (query_loki_logs_invalid lib cfg gj b H) as [text Hrun].
    eauto. }
  assert (Hbad : forall gj, (exists m t,
      routes.query_loki_logs lib cfg gj b
      = (Val (create_error_response m "VALIDATION_ERROR", 400),
         after_log "WARNING" t b)) ->
    exists body status b',
      routes.query_loki_logs lib cfg gj b = (Val (body, status), b')
      /\ http_get b' = http_get b
      /\ (got b' = got b
          \/ exists q start_time end_time,
              got b'
              = (got b ++ [logs_request cfg q start_time end_time])%list)
      /\ ((status = 200 /\ exists logs, body = create_success_response logs)
          \/ (status = 400 /\ got b' = got b
              /\ exists message,
                  body = create_error_response message "VALIDATION_ERROR")
          \/ (status = 500
              /\ (body = create_error_response "Failed to query logs"
                           "LOKI_ERROR"
                  \/ body = create_error_response "Internal server error"
                              "INTERNAL_ERROR")))).
  { intros gj (m & t & H). do 3 eexists. split; [exact H|].
    split; [reflexivity|]. split; [left; reflexivity|].
    right; left. split; [reflexivity|]. split; [reflexivity|]. eauto. }
  destruct get_json as [request_data|e]; [|apply Hbad, Hrej; exact I].
  destruct (truthy request_data) eqn:Ht; [|apply Hbad, Hrej; auto].
  destruct request_data as [| t | n | s | l | d];
    try (unfold routes.query_loki_logs, b_try; rewrite Ht; cbn [negb];
         do 3 eexists; split; [reflexivity|];
         split; [reflexivity|]; split; [left; reflexivity|];
         right; right; split; [reflexivity|]; right; reflexivity).
  destruct (dict_lookup "label" d) as [label|] eqn:Hl;
    [|apply Hbad, Hrej; right; exists d; rewrite Hl; auto].
  destruct (truthy label) eqn:Htl;
    [|apply Hbad, Hrej; right; exists d; rewrite Hl; auto].
  rewrite (query_loki_logs_run lib cfg d label b Ht Hl Htl). cbv zeta.
  set (st := match dict_lookup "start_time" d with
             | Some v => v | None => JNull end).
  set (et := match dict_lookup "end_time" d with
             | Some v => v | None => JNull end).
  set (b1 := after_log "INFO" (routes.query_log_msg lib label st et) b).
  assert (Hb2 : http_get (snd (query_logs lib cfg label st et b1)) = http_get b
                /\ (got (snd (query_logs lib cfg label st et b1)) = got b
                    \/ exists q, got (snd (query_logs lib cfg label st et b1))
                                 = (got b ++ [logs_request cfg q st et])%list)).
  { destruct (query_logs_state lib cfg label st et b1)
      as [(e & _ & ->)|(q & _ & ->)].
    - split; [reflexivity|left; reflexivity].
    - split; [reflexivity|right; exists q; reflexivity]. }
  destruct (query_logs lib cfg label st et b1) as [out b2].
  simpl in Hb2. destruct Hb2 as [Hget Hgot].
  assert (Hgot' : forall level text,
            got (after_log level text b2) = got b
            \/ exists q start_time end_time,
                got (after_log level text b2)
                = (got b ++ [logs_request cfg q start_time end_time])%list).
  { intros level text. destruct Hgot as [Hgot|[q Hgot]];
      [left; exact Hgot | right; exists q, st, et; exact Hgot]. }
  destruct out as [logs|e].
  - destruct (py_len logs) as [n|e].
    + do 3 eexists. split; [reflexivity|]. split; [exact Hget|].
      split; [apply Hgot'|]. left. split; [reflexivity|]. eauto.
    + do 3 eexists. split; [reflexivity|]. split; [exact Hget|].
      split; [apply Hgot'|]. right; right. split; [reflexivity|].
      right. reflexivity.
  - destruct e as [[]| | | | |];
      do 3 eexists; (split; [reflexivity|]); (split; [exact Hget|]);
      (split; [apply Hgot'|]); right; right; (split; [reflexivity|]);
      auto.
Qed.

(** X18. A request whose body parses to a truthy JSON value that is not
    an object (a number, [true], a string, a list) is not rejected with
    400: reading its label raises [AttributeError], and
    [query_loki_logs] answers 500 with the [INTERNAL_ERROR] envelope,
    logs one ERROR record and sends nothing to Loki. *)
Theorem query_loki_logs_non_object_body (lib : PyLib) (cfg : Config)
    (request_data : json) (b : Backend) :
  truthy request_data = true ->
  (forall d, request_data <> JDict d) ->
  routes.query_loki_logs lib cfg (Val request_data) b
  = (Val (create_error_response "Internal server error" "INTERNAL_ERROR", 500),
     after_log "ERROR"
       ("Unexpected error in query_loki_logs: '" ++ type_name request_data
          ++ "' object has no attribute 'get'") b).
Proof.
  intros Ht Hd. unfold routes.query_loki_logs, b_try. rewrite Ht. cbn [negb].
  destruct request_data as [| t | n | s | l | d];
    try reflexivity.
  destruct (Hd d eq_refl).
Qed.

Lemma query_loki_logs_non_object_body_witness :
  routes.query_loki_logs sample_lib config (Val (JList [JStr "app:main"]))
    (backend_answering sample_answer)
  = (Val (create_error_response "Internal server error" "INTERNAL_ERROR", 500),
     after_log "ERROR"
       "Unexpected error in query_loki_logs: 'list' object has no attribute 'get'"
       (backend_answering sample_answer)).
Proof.
  apply (query_loki_logs_non_object_body sample_lib config
           (JList [JStr "app:main"]) (backend_answering sample_answer)).
  - reflexivity.
  - intros d H. discriminate H.
Defined.

(** X19. A request whose label is a non-zero number or [true] passes
    the validation, but the test [':' in label] raises a [TypeError]
    that [query_logs] does not catch: [query_loki_logs] answers 500 with
    the [INTERNAL_ERROR] envelope after an INFO and an ERROR record, and
    sends nothing to Loki. *)
Theorem query_loki_logs_scalar_label (lib : PyLib) (cfg : Config)
    (d : list (string * json)) (label : json) (b : Backend) :
  dict_lookup "label" d = Some label ->
  truthy label = true ->
  ((exists n, label = JInt n) \/ label = JBool true) ->
  routes.query_loki_logs lib cfg (Val (JDict d)) b
  = (Val (create_error_response "Internal server error" "INTERNAL_ERROR",
          500),
     after_log "ERROR"
       ("Unexpected error in query_loki_logs: argument of type '"
          ++ type_name label ++ "' is not iterable")
       (after_log "INFO"
          (routes.query_log_msg lib label
             match dict_lookup "start_time" d with
             | Some v => v | None => JNull end
             match dict_lookup "end_time" d with
             | Some v => v | None => JNull end) b)).
Proof.
  intros Hl Ht Hk.
  assert (Hd : truthy (JDict d) = true)
    by (destruct d; [discriminate|reflexivity]).
  rewrite (query_loki_logs_run lib cfg d label b Hd Hl Ht). cbv zeta.
  destruct Hk as [[n ->]| ->]; reflexivity.
Qed.

Lemma query_loki_logs_scalar_label_witness :
  routes.query_loki_logs sample_lib config (Val (JDict [("label", JInt 7)]))
    (backend_answering sample_answer)
  = (Val (create_error_response "Internal server error" "INTERNAL_ERROR",
          500),
     after_log "ERROR"
       "Unexpected error in query_loki_logs: argument of type 'int' is not iterable"
       (after_log "INFO" "Querying logs from Loki with label=7"
          (backend_answering sample_answer))).
Proof.
  apply (query_loki_logs_scalar_label sample_lib config [("label", JInt 7)]
           (JInt 7) (backend_answering sample_answer)).
  - reflexivity.
  - reflexivity.
  - left. exists 7. reflexivity.
Defined.

(** X20. For a request with a non-empty string label, when Loki answers
    with a non-error status and an object whose [data.result] lists
    streams of timestamped lines whose timestamps all convert,
    [query_loki_logs] answers 200 with the success envelope around the
    entries of [query_logs], one per line in the order of the answer,
    after one request to Loki; it logs the query at INFO, then the number
    of entries at INFO. Other keys of the answer are not read. *)
Theorem query_loki_logs_success (lib : PyLib) (cfg : Config)
    (d : list (string * json)) (s : string) (b : Backend) (q : string)
    (r : GetResponse) (data : json)
    (streams : list (json * list (json * json))) (iso : json -> string) :
  let start_time :=
    match dict_lookup "start_time" d with Some v => v | None => JNull end in
  let end_time :=
    match dict_lookup "end_time" d with Some v => v | None => JNull end in
  dict_lookup "label" d = Some (JStr s) ->
  s <> "" ->
  logql_of_label lib (JStr s) = Val q ->
  http_get b (logs_request cfg q start_time end_time) = GetResponds r ->
  ~ 400 <= g_status r < 600 ->
  g_json r = Val data ->
  answer_of streams data ->
  Forall (fun st =>
            Forall (fun tm => isoformat_of_ns lib (fst tm) = Val (iso (fst tm)))
              (snd st)) streams ->
  routes.query_loki_logs lib cfg (Val (JDict d)) b
  = (Val (JDict [("status", JStr "success");
                 ("data", JList (entries_of iso streams))], 200),
     after_log "INFO"
       ("Successfully retrieved "
          ++ str_of_int (Z.of_nat (List.length (entries_of iso streams)))
          ++ " log entries from Loki")
       (after_get (logs_request cfg q start_time end_time)
          (after_log "INFO"
             (routes.query_log_msg lib (JStr s) start_time end_time) b))).
Proof.
  intros start_time end_time Hl Hne Hq Hr Hs Hj Hshape Hiso.
  assert (Hd : truthy (JDict d) = true)
    by (destruct d; [discriminate|reflexivity]).
  assert (Ht : truthy (JStr s) = true).
  { cbn [truthy]. destruct (String.eqb s "") eqn:E; [|reflexivity].
    apply String.eqb_eq in E. contradiction. }
  rewrite (query_loki_logs_run lib cfg d (JStr s) b Hd Hl Ht). cbv zeta.
  fold start_time end_time.
  rewrite (query_logs_of_streams lib cfg s start_time end_time
             (after_log "INFO"
                (routes.query_log_msg lib (JStr s) start_time end_time) b)
             q r data streams iso Hq Hr Hs Hj Hshape Hiso).
  reflexivity.
Qed.

Lemma query_loki_logs_success_witness :
  routes.query_loki_logs sample_lib config
    (Val (JDict [("label", JStr "app:main")]))
    (backend_answering sample_answer)
  = (Val (JDict
            [("status", JStr "success");
             ("data",
              JList
                [ JDict [("timestamp", JStr "iso:1700000000000000000");
                         ("message", JStr "[INFO] boot complete");
                         ("labels", JDict [("app", JStr "main")])];
                  JDict [("timestamp", JStr "iso:1700000000000000001");
                         ("message", JStr "[ERROR] lost");
                         ("labels", JDict [("app", JStr "main")])] ])], 200),
     after_log "INFO" "Successfully retrieved 2 log entries from Loki"
       (after_get
          (logs_request config ("{app=" ++ dquote ++ "main" ++ dquote ++ "}")
             JNull JNull)
          (after_log "INFO" "Querying logs from Loki with label=app:main"
             (backend_answering sample_answer)))).
Proof.
  apply (query_loki_logs_success sample_lib config
           [("label", JStr "app:main")] "app:main"
           (backend_answering sample_answer)
           ("{app=" ++ dquote ++ "main" ++ dquote ++ "}")
           {| g_status := 200; g_reason := "OK";
              g_url := "http://localhost:3100/loki/api/v1/query_range";
              g_json := Val sample_answer |}
           sample_answer sample_streams sample_iso).
  - reflexivity.
  - discriminate.
  - reflexivity.
  - reflexivity.
  - simpl. lia.
  - reflexivity.
  - exact sample_answer_shape.
  - exact sample_streams_convert.
Defined.

(** ** The pytest hooks *)

(** X21. Every hook of [conftest.py] returns without raising and starts
    at most one logging thread. The thread carries no labels of its own,
    so when it runs it posts one line, [[LEVEL] message], under the
    default labels of the dispatcher. *)
Theorem conftest_hook_default_labels (cfg : Config) (h : Hook) (w : World) :
  exists ts,
    run_hook h w = (Ok tt, after_starts ts w)
    /\ (List.length ts <= 1)%nat
    /\ forall t, In t ts ->
         t_labels t = None
         /\ posted (thread_run cfg t (after_starts ts w))
            = (posted w
               ++ [push_request cfg (t_message t) (t_level t)
                     (default_labels (logger_obj w)) (clock_ns w)])%list.
Proof.
  assert (Hone : forall t, t_labels t = None ->
    forall t', In t' [t] ->
      t_labels t' = None
      /\ posted (thread_run cfg t' (after_starts [t] w))
         = (posted w
            ++ [push_request cfg (t_message t') (t_level t')
                  (default_labels (logger_obj w)) (clock_ns w)])%list).
  { intros t Ht t' [<-|[]]. split; [exact Ht|].
    destruct (thread_run_effect cfg t (after_starts [t] w))
      as (Hp & _).
    rewrite Hp, Ht. reflexivity. }
  assert (Hnone : exists ts,
    (Ok tt, w) = (Ok tt, after_starts ts w)
    /\ (List.length ts <= 1)%nat
    /\ forall t, In t ts ->
         t_labels t = None
         /\ posted (thread_run cfg t (after_starts ts w))
            = (posted w
               ++ [push_request cfg (t_message t) (t_level t)
                     (default_labels (logger_obj w)) (clock_ns w)])%list).
  { exists []. split.
    - unfold after_starts. rewrite List.app_nil_r. destruct w; reflexivity.
    - split; [simpl; lia|]. intros t []. }
  destruct h as [item_nodeid | report | | exitstatus]; cbn [run_hook].
  - eexists [_]. split; [reflexivity|]. split; [simpl; lia|].
    apply Hone. reflexivity.
  - unfold conftest.pytest_runtest_logreport.
    destruct (String.eqb (conftest.when report) "call"); [|exact Hnone].
    destruct (conftest.passed report);
      [eexists [_]; split; [reflexivity|]; split; [simpl; lia|];
       apply Hone; reflexivity|].
    destruct (conftest.failed report);
      [eexists [_]; split; [reflexivity|]; split; [simpl; lia|];
       apply Hone; reflexivity|].
    destruct (conftest.skipped report);
      [eexists [_]; split; [reflexivity|]; split; [simpl; lia|];
       apply Hone; reflexivity|].
    exact Hnone.
  - eexists [_]. split; [reflexivity|]. split; [simpl; lia|].
    apply Hone. reflexivity.
  - eexists [_]. split; [reflexivity|]. split; [simpl; lia|].
    apply Hone. reflexivity.
Qed.

(** X22. For a request with a non-empty string label, when Loki cannot
    be reached or answers the query with a 4xx or 5xx status,
    [query_loki_logs] answers 500 with the envelope
    [Failed to query logs] / [LOKI_ERROR] after its one request. The
    cause is not in the body; the ERROR record carries it after the
    prefix [Failed to query logs from Loki: ] written twice. *)
Theorem query_loki_logs_loki_down (lib : PyLib) (cfg : Config)
    (d : list (string * json)) (s : string) (b : Backend) (q : string)
    (cause : string) :
  let start_time :=
    match dict_lookup "start_time" d with Some v => v | None => JNull end in
  let end_time :=
    match dict_lookup "end_time" d with Some v => v | None => JNull end in
  let rq := logs_request cfg q start_time end_time in
  dict_lookup "label" d = Some (JStr s) ->
  s <> "" ->
  logql_of_label lib (JStr s) = Val q ->
  ((exists kind, http_get b rq = GetFails kind cause)
   \/ (exists r, http_get b rq = GetResponds r
                 /\ 400 <= g_status r < 600
                 /\ cause = http_error_msg {| status_code := g_status r;
                                              reason := g_reason r;
                                              resp_url := g_url r |})) ->
  routes.query_loki_logs lib cfg (Val (JDict d)) b
  = (Val (create_error_response "Failed to query logs" "LOKI_ERROR", 500),
     after_log "ERROR"
       ("Failed to query logs from Loki: Failed to query logs from Loki: "
          ++ cause)
       (after_get rq
          (after_log "INFO"
             (routes.query_log_msg lib (JStr s) start_time end_time) b))).
Proof.
  intros start_time end_time rq Hl Hne Hq H.
  assert (Hd : truthy (JDict d) = true)
    by (destruct d; [discriminate|reflexivity]).
  assert (Ht : truthy (JStr s) = true).
  { cbn [truthy]. destruct (String.eqb s "") eqn:E; [|reflexivity].
    apply String.eqb_eq in E. contradiction. }
  rewrite (query_loki_logs_run lib cfg d (JStr s) b Hd Hl Ht). cbv zeta.
  fold start_time end_time.
  rewrite (query_logs_run lib cfg (JStr s) start_time end_time q _ Hq).
  cbv zeta. fold rq.
  change (http_get (after_log "INFO"
                      (routes.query_log_msg lib (JStr s) start_time end_time)
                      b)) with (http_get b).
  destruct H as [[kind H]|(r & H & Hs & Hc)]; rewrite H.
  - reflexivity.
  - apply error_status_iff in Hs. rewrite Hs. subst cause. reflexivity.
Qed.

Lemma query_loki_logs_loki_down_witness :
  routes.query_loki_logs sample_lib config
    (Val (JDict [("label", JStr "app:main"); ("start_time", JStr "1700000000")]))
    {| world := started unreachable 0;
       http_get := fun _ => GetFails ConnectionError "Connection refused";
       got := [] |}
  = (Val (create_error_response "Failed to query logs" "LOKI_ERROR", 500),
     after_log "ERROR"
       ("Failed to query logs from Loki: Failed to query logs from Loki: "
          ++ "Connection refused")
       (after_get
          (logs_request config ("{app=" ++ dquote ++ "main" ++ dquote ++ "}")
             (JStr "1700000000") JNull)
          (after_log "INFO"
             "Querying logs from Loki with label=app:main, start_time=1700000000, end_time=None"
             {| world := started unreachable 0;
                http_get :=
                  fun _ => GetFails ConnectionError "Connection refused";
                got := [] |}))).
Proof.
  apply (query_loki_logs_loki_down sample_lib config
           [("label", JStr "app:main"); ("start_time", JStr "1700000000")]
           "app:main"
           {| world := started unreachable 0;
              http_get := fun _ => GetFails ConnectionError "Connection refused";
              got := [] |}
           ("{app=" ++ dquote ++ "main" ++ dquote ++ "}")
           "Connection refused").
  - reflexivity.
  - discriminate.
  - reflexivity.
  - left. exists ConnectionError. reflexivity.
Defined.
